(** * RalfApp backend: upload sessions, chunk protocol and analysis jobs

    A shallow embedding of the parts of [backend/app] that own the
    resumable upload protocol ([websocket.py], [routers/upload.py]) and the
    analysis job life cycle ([routers/analysis.py], [tasks.py]), of the
    registry of live connections and the notification channel of
    [websocket.py], and of the single-video routes of [routers/videos.py],
    together with the properties of the specification that speak about
    them and further properties read off the code.

    Conventions of the embedding:
    - Python [int] is [Z]; [//] is floor division ([Z.div]) and raises
      [ZeroDivisionError] on a zero divisor, which is written out.
    - UUID primary keys and user identities are opaque, modelled as [Z].
    - [datetime] values are integers (microseconds since the epoch) in
      the rows; where the code orders two of them, whether each carries a
      time zone is part of the value, since Python refuses to order an
      aware against a naive one.
    - [bytes] are [list Byte.byte]; the [dict] of buffered chunks is a
      [gmap Z bytes], the [set] of received indices a [gset Z].
    - A database table is the list of its rows; an ORM object held by a
      handler is a copy of its row, written back by primary key on commit
      (the session factory is built with [expire_on_commit=False]).
    - Values chosen by the environment (random file names, fresh primary
      keys, the clock) are arguments of the handlers. *)

From Stdlib Require Import ZArith QArith List Permutation.
From stdpp Require Import gmap strings list fin_maps fin_sets.
Import ListNotations.

#[local] Set Warnings "-clear-no-such-hyp".

Abbreviation bytes := (list Byte.byte).

(** ** models.py *)

Module UploadSession.
Record t := mk {
  id : Z;
  user_id : Z;
  filename : string;
  file_size : Z;
  chunk_size : Z;
  total_chunks : Z;
  uploaded_chunks : Z;
  status : string;
  session_token : string;
  expires_at : Z
}.

Definition set_status (v : string) (s : t) : t :=
  mk (id s) (user_id s) (filename s) (file_size s) (chunk_size s)
     (total_chunks s) (uploaded_chunks s) v (session_token s) (expires_at s).

Definition set_uploaded_chunks (v : Z) (s : t) : t :=
  mk (id s) (user_id s) (filename s) (file_size s) (chunk_size s)
     (total_chunks s) v (status s) (session_token s) (expires_at s).
End UploadSession.

Module Video.
(** The nullable metadata columns (duration, width, height, fps, codec,
    bitrate) are filled by the analyzer only and are left out. *)
Record t := mk {
  id : Z;
  user_id : Z;
  filename : string;
  original_filename : string;
  file_path : string;
  file_size : Z;
  mime_type : string;
  upload_status : string
}.
End Video.

Module VideoAnalysis.
(** [result] is the analyzer's JSON document, kept opaque as a string;
    timestamps and [processing_time] are left out. *)
Record t := mk {
  id : Z;
  video_id : Z;
  analysis_type : string;
  status : string;
  result : option string;
  error_message : option string;
  worker_id : option string
}.

Definition set_running (w : string) (a : t) : t :=
  mk (id a) (video_id a) (analysis_type a) "running"
     (result a) (error_message a) (Some w).

Definition set_completed (r : string) (a : t) : t :=
  mk (id a) (video_id a) (analysis_type a) "completed"
     (Some r) (error_message a) (worker_id a).

Definition set_failed (e : string) (a : t) : t :=
  mk (id a) (video_id a) (analysis_type a) "failed"
     (result a) (Some e) (worker_id a).
End VideoAnalysis.

(** HTTP outcomes of the routers: the returned value or the raised
    [HTTPException] (status code and detail); an exception that no handler
    catches is reported by the framework as a 500. *)
Inductive http_result (A : Type) :=
| Ok (a : A)
| HTTPException (status_code : Z) (detail : string)
| Unhandled (exn : string).
Arguments Ok {A} a.
Arguments HTTPException {A} status_code detail.
Arguments Unhandled {A} exn.

Definition HTTP_400_BAD_REQUEST : Z := 400.
Definition HTTP_404_NOT_FOUND : Z := 404.
Definition HTTP_409_CONFLICT : Z := 409.

(** [range(n)] of Python: 0, 1, ..., n-1, empty when [n <= 0]. *)
Definition py_range (n : Z) : list Z := map Z.of_nat (seq 0 (Z.to_nat n)).

(** Writing the changed columns of an ORM object back: UPDATE ... WHERE id. *)
Definition update_session (sid : Z) (f : UploadSession.t -> UploadSession.t)
    (tbl : list UploadSession.t) : list UploadSession.t :=
  map (fun r => if Z.eqb (UploadSession.id r) sid then f r else r) tbl.

(** Python's [datetime] where it is compared: the instant, and whether the
    value carries a time zone. [datetime.utcnow()] is naive. A value read
    from a column declared [DateTime(timezone=True)] (all the timestamp
    columns of models.py) comes back aware from the asyncpg driver that
    database.py selects. [a < b] on an aware and a naive value raises
    [TypeError], here [None]. *)
Record datetime := { instant : Z; aware : bool }.

Definition utcnow (now : Z) : datetime := {| instant := now; aware := false |}.

Definition from_column (t : Z) : datetime := {| instant := t; aware := true |}.

Definition datetime_lt (a b : datetime) : option bool :=
  if Bool.eqb (aware a) (aware b) then Some (Z.ltb (instant a) (instant b))
  else None.

(** ** routers/upload.py *)

Module Upload.

(** [timedelta(hours=24)] in microseconds. *)
Definition hours_24 : Z := 24 * 3600 * 1000000.

(** The request body [UploadSessionCreate]. *)
Record UploadSessionCreate := {
  filename : string;
  file_size : Z;
  chunk_size : Z
}.

(** [create_upload_session]: [new_id] is the fresh primary key,
    [token] the value of [secrets.token_urlsafe(32)], [now] the clock.
    Returns the table after the commit and the response. *)
Definition create_upload_session (session_data : UploadSessionCreate)
    (current_user_id : Z) (new_id : Z) (token : string) (now : Z)
    (tbl : list UploadSession.t)
  : list UploadSession.t * http_result UploadSession.t :=
  if Z.eqb (chunk_size session_data) 0 then
    (tbl, Unhandled "ZeroDivisionError")
  else
    let total_chunks :=
      ((file_size session_data + chunk_size session_data - 1)
         / chunk_size session_data)%Z in
    let upload_session :=
      UploadSession.mk new_id current_user_id (filename session_data)
        (file_size session_data) (chunk_size session_data) total_chunks
        0 "active" token (now + hours_24)%Z in
    (tbl ++ [upload_session], Ok upload_session).

(** [select(UploadSession).where(session_token == .., user_id == ..)]
    followed by [.scalars().first()]. *)
Definition select_owned (session_token : string) (current_user_id : Z)
    (tbl : list UploadSession.t) : option UploadSession.t :=
  find (fun r => String.eqb (UploadSession.session_token r) session_token
                 && Z.eqb (UploadSession.user_id r) current_user_id) tbl.

Definition get_upload_session (session_token : string) (current_user_id : Z)
    (now : Z) (tbl : list UploadSession.t) : http_result UploadSession.t :=
  match select_owned session_token current_user_id tbl with
  | None => HTTPException HTTP_404_NOT_FOUND "Upload session not found"
  | Some session =>
      match datetime_lt (from_column (UploadSession.expires_at session))
              (utcnow now) with
      | None => Unhandled "TypeError"
      | Some true => HTTPException HTTP_400_BAD_REQUEST "Upload session expired"
      | Some false => Ok session
      end
  end.

Definition cancel_upload_session (session_token : string) (current_user_id : Z)
    (tbl : list UploadSession.t) : list UploadSession.t * http_result string :=
  match select_owned session_token current_user_id tbl with
  | None => (tbl, HTTPException HTTP_404_NOT_FOUND "Upload session not found")
  | Some session =>
      (update_session (UploadSession.id session)
         (UploadSession.set_status "cancelled") tbl,
       Ok "Upload session cancelled")
  end.

(** The multipart part of [simple_upload]: [filename] and [content_type]
    are optional in the framework's [UploadFile]; [content] is what
    [await file.read()] returns. *)
Module UploadFile.
Record t := mk {
  filename : option string;
  content_type : option string;
  content : bytes
}.
End UploadFile.

(** [simple_upload]: [unique_filename] is the random token followed by the
    extension of the client's file name, [file_path] its place under the
    user's storage directory, [new_id] the key of the new row. Works on the
    video table and on the files written so far. Calling a method or
    [os.path.splitext] on [None] raises, which no handler catches. *)
Definition simple_upload (file : UploadFile.t) (current_user_id : Z)
    (unique_filename file_path : string) (new_id : Z)
    (vids : list Video.t) (fs : list (string * bytes))
  : list Video.t * list (string * bytes) * http_result (string * Z * string) :=
  match UploadFile.content_type file with
  | None => (vids, fs, Unhandled "AttributeError")
  | Some content_type =>
      if negb (String.prefix "video/" content_type) then
        (vids, fs, HTTPException HTTP_400_BAD_REQUEST "Only video files are allowed")
      else
        match UploadFile.filename file with
        | None => (vids, fs, Unhandled "TypeError")
        | Some original_filename =>
            let content := UploadFile.content file in
            let video :=
              Video.mk new_id current_user_id unique_filename original_filename
                file_path (Z.of_nat (length content)) content_type "completed" in
            (vids ++ [video], fs ++ [(file_path, content)],
             Ok ("File uploaded successfully", Video.id video, unique_filename))
        end
  end.

End Upload.

(** ** websocket.py: the chunk upload channel *)

Module Websocket.

(** Frames the server sends with [websocket.send_text(json.dumps(..))].
    [progress] is [len(received_chunks) / total_chunks * 100]; the source
    computes it in floating point, here it is the exact rational. *)
Inductive server_msg :=
| error (message : string)
| session_info (session_id : Z) (filename : string)
    (file_size chunk_size total_chunks uploaded_chunks : Z)
| progress (chunk_index uploaded_chunks total_chunks : Z) (percent : Q)
| upload_complete (video_id : Z) (filename : string) (message : string)
| upload_cancelled (message : string).

(** What [await websocket.receive_text()] followed by [json.loads] and the
    field accesses can yield: a chunk message with its integer index and
    its payload after [base64.b64decode], a cancel message, a message of
    another type (no branch applies), a [WebSocketDisconnect], or any
    other exception (bad JSON, missing key, bad base64) with its text. *)
Inductive client_event :=
| chunk (chunk_index : Z) (chunk_content : bytes)
| cancel
| other_type
| disconnect
| raises (exn : string).

(** Values the loop works with, fixed before it starts (lines 94-101) or
    chosen by the database: the generated file name (a random token
    followed by the extension of the session's file name), the path
    joined from the storage directory, the user's directory and that
    name, and the key the new [Video] row will get. *)
Record env := {
  unique_filename : string;
  file_path : string;
  new_video_id : Z
}.

(** The state a connection handler works on: both tables, the ORM object
    it loaded, its two local collections, and what it has emitted. *)
Record conn := {
  upload_sessions : list UploadSession.t;
  videos : list Video.t;
  upload_session : UploadSession.t;
  received_chunks : gset Z;
  chunk_data : gmap Z bytes;
  sent : list server_msg;
  files : list (string * bytes);
  published : list (string * (Z * string))
}.

Inductive ctl := Continue | Break.

(** [len(received_chunks)] as a Python int. *)
Definition len (s : gset Z) : Z := Z.of_nat (size s).

(** The body of [for i in range(total_chunks): if i in chunk_data: write]. *)
Definition assemble (total_chunks : Z) (cd : gmap Z bytes) : bytes :=
  flat_map (fun i => match cd !! i with Some b => b | None => [] end)
           (py_range total_chunks).

Definition send (m : server_msg) (c : conn) : conn :=
  {| upload_sessions := upload_sessions c; videos := videos c;
     upload_session := upload_session c;
     received_chunks := received_chunks c; chunk_data := chunk_data c;
     sent := sent c ++ [m]; files := files c; published := published c |}.

(** [chunk_data[chunk_index] = chunk_content; received_chunks.add(..)]. *)
Definition store_chunk (chunk_index : Z) (chunk_content : bytes) (c : conn) : conn :=
  {| upload_sessions := upload_sessions c; videos := videos c;
     upload_session := upload_session c;
     received_chunks := {[chunk_index]} ∪ received_chunks c;
     chunk_data := <[chunk_index := chunk_content]> (chunk_data c);
     sent := sent c; files := files c; published := published c |}.

(** Assign through the ORM object and commit. *)
Definition commit_session (f : UploadSession.t -> UploadSession.t) (c : conn) : conn :=
  {| upload_sessions :=
       update_session (UploadSession.id (upload_session c)) f (upload_sessions c);
     videos := videos c;
     upload_session := f (upload_session c);
     received_chunks := received_chunks c; chunk_data := chunk_data c;
     sent := sent c; files := files c; published := published c |}.

Definition write_file (path : string) (content : bytes) (c : conn) : conn :=
  {| upload_sessions := upload_sessions c; videos := videos c;
     upload_session := upload_session c;
     received_chunks := received_chunks c; chunk_data := chunk_data c;
     sent := sent c; files := files c ++ [(path, content)];
     published := published c |}.

Definition add_video (v : Video.t) (c : conn) : conn :=
  {| upload_sessions := upload_sessions c; videos := videos c ++ [v];
     upload_session := upload_session c;
     received_chunks := received_chunks c; chunk_data := chunk_data c;
     sent := sent c; files := files c; published := published c |}.

Definition publish (channel : string) (video_id : Z) (analysis_type : string)
    (c : conn) : conn :=
  {| upload_sessions := upload_sessions c; videos := videos c;
     upload_session := upload_session c;
     received_chunks := received_chunks c; chunk_data := chunk_data c;
     sent := sent c; files := files c;
     published := published c ++ [(channel, (video_id, analysis_type))] |}.

(** Lines 138-178: all chunks are in, write the file, record the video,
    complete the session, tell the client, queue the default analysis. *)
Definition complete_upload (e : env) (c : conn) : conn :=
  let s := upload_session c in
  let c := write_file (file_path e)
             (assemble (UploadSession.total_chunks s) (chunk_data c)) c in
  let video :=
    Video.mk (new_video_id e) (UploadSession.user_id s) (unique_filename e)
      (UploadSession.filename s) (file_path e) (UploadSession.file_size s)
      "video/mp4" "completed" in
  let c := add_video video c in
  let c := commit_session (UploadSession.set_status "completed") c in
  let c := send (upload_complete (Video.id video) (unique_filename e)
                   "Upload completed successfully") c in
  publish "video_analysis_queue" (Video.id video) "metadata_extraction" c.

(** The connection after lines 117-134 ran without an exception: the
    chunk is stored, the count committed and the progress frame sent. *)
Definition after_chunk (c : conn) (i : Z) (b : bytes) : conn :=
  let c1 := store_chunk i b c in
  let c2 := commit_session
              (UploadSession.set_uploaded_chunks (len (received_chunks c1))) c1 in
  let total := UploadSession.total_chunks (upload_session c2) in
  send (progress i (len (received_chunks c2)) total
          (Qmult (Qdiv (inject_Z (len (received_chunks c2))) (inject_Z total))
                 (inject_Z 100))) c2.

(** One turn of the [while True] loop, lines 108-200. *)
Definition handle_message (e : env) (c : conn) (ev : client_event) : conn * ctl :=
  match ev with
  | chunk chunk_index chunk_content =>
      let c := store_chunk chunk_index chunk_content c in
      let c := commit_session
                 (UploadSession.set_uploaded_chunks (len (received_chunks c))) c in
      let total := UploadSession.total_chunks (upload_session c) in
      if Z.eqb total 0 then
        (* the division raises; the generic handler reports and leaves *)
        (send (error "division by zero") c, Break)
      else
        let percent :=
          Qmult (Qdiv (inject_Z (len (received_chunks c))) (inject_Z total))
                (inject_Z 100) in
        let c := send (progress chunk_index (len (received_chunks c)) total percent) c in
        if Z.eqb (len (received_chunks c)) total then
          (complete_upload e c, Break)
        else (c, Continue)
  | cancel =>
      let c := commit_session (UploadSession.set_status "cancelled") c in
      (send (upload_cancelled "Upload cancelled") c, Break)
  | other_type => (c, Continue)
  | disconnect => (c, Break)
  | raises exn => (send (error exn) c, Break)
  end.

(** The loop over the frames the client sends; when they run out the
    handler is still waiting in [receive_text] ([Continue]). *)
Fixpoint receive_loop (e : env) (c : conn) (evs : list client_event) : conn * ctl :=
  match evs with
  | [] => (c, Continue)
  | ev :: evs' =>
      match handle_message e c ev with
      | (c', Break) => (c', Break)
      | (c', Continue) => receive_loop e c' evs'
      end
  end.

(** What a connection leaves behind when the handler returns early. *)
Definition reject (tbl : list UploadSession.t) (vids : list Video.t)
    (s : UploadSession.t) (m : server_msg) : conn :=
  {| upload_sessions := tbl; videos := vids; upload_session := s;
     received_chunks := ∅; chunk_data := ∅; sent := [m];
     files := []; published := [] |}.

(** Lines 80-105: the session info frame is sent and the two local
    collections start empty. *)
Definition open_conn (tbl : list UploadSession.t) (vids : list Video.t)
    (s : UploadSession.t) : conn :=
  {| upload_sessions := tbl; videos := vids; upload_session := s;
     received_chunks := ∅; chunk_data := ∅;
     sent := [session_info (UploadSession.id s) (UploadSession.filename s)
                (UploadSession.file_size s) (UploadSession.chunk_size s)
                (UploadSession.total_chunks s) (UploadSession.uploaded_chunks s)];
     files := []; published := [] |}.

Definition select_token (session_token : string) (tbl : list UploadSession.t)
  : option UploadSession.t :=
  find (fun r => String.eqb (UploadSession.session_token r) session_token) tbl.

(** Lines 73-200, what the handler does with a session once the expiry
    test has let it pass: refuse a session that is not active, otherwise
    announce the session and run the loop. *)
Definition serve (e : env) (tbl : list UploadSession.t) (vids : list Video.t)
    (upload_session : UploadSession.t) (evs : list client_event) : conn * ctl :=
  if negb (String.eqb (UploadSession.status upload_session) "active") then
    (reject tbl vids upload_session (error "Session is not active"), Break)
  else receive_loop e (open_conn tbl vids upload_session) evs.

(** What a connection leaves behind when the handler is left by an
    exception before the loop: line 202 logs it and sends nothing. *)
Definition aborted (tbl : list UploadSession.t) (vids : list Video.t)
    (s : UploadSession.t) : conn :=
  {| upload_sessions := tbl; videos := vids; upload_session := s;
     received_chunks := ∅; chunk_data := ∅; sent := [];
     files := []; published := [] |}.

(** [websocket_upload_endpoint]: [None] when the token names no session
    (only the error frame is sent), otherwise the final connection state
    and whether the loop was left. The expiry test orders the stored
    [expires_at] against [datetime.utcnow()]. *)
Definition websocket_upload_endpoint (e : env) (session_token : string) (now : Z)
    (tbl : list UploadSession.t) (vids : list Video.t)
    (evs : list client_event) : option (conn * ctl) :=
  match select_token session_token tbl with
  | None => None
  | Some upload_session =>
      match datetime_lt (from_column (UploadSession.expires_at upload_session))
              (utcnow now) with
      | None => Some (aborted tbl vids upload_session, Break)
      | Some true =>
          Some (reject tbl vids upload_session (error "Session expired"), Break)
      | Some false => Some (serve e tbl vids upload_session evs)
      end
  end.

End Websocket.

(** ** websocket.py: the registry of live connections *)

Module ConnectionManager.

(** [active_connections] is a [dict] from client id to websocket; a dict
    keeps its keys in insertion order, so it is an association list. A
    websocket is an opaque handle; what the manager did to the sockets is
    recorded: which were accepted and which text went to which socket.
    A send to a socket is taken to succeed. *)
Record t := {
  active_connections : list (string * Z);
  accepted : list Z;
  sent_text : list (Z * string)
}.

(** [__init__]. *)
Definition init : t :=
  {| active_connections := []; accepted := []; sent_text := [] |}.

(** [d[k] = v]: a known key keeps its place, a new one goes last. *)
Fixpoint dict_set (k : string) (v : Z) (d : list (string * Z)) : list (string * Z) :=
  match d with
  | [] => [(k, v)]
  | (k', v') :: d' =>
      if String.eqb k' k then (k, v) :: d' else (k', v') :: dict_set k v d'
  end.

(** [d[k]] guarded by [k in d]. *)
Definition dict_get (k : string) (d : list (string * Z)) : option Z :=
  option_map snd (find (fun kv => String.eqb (fst kv) k) d).

(** [del d[k]]. *)
Definition dict_del (k : string) (d : list (string * Z)) : list (string * Z) :=
  List.filter (fun kv => negb (String.eqb (fst kv) k)) d.

Definition connect (websocket : Z) (client_id : string) (m : t) : t :=
  {| active_connections := dict_set client_id websocket (active_connections m);
     accepted := accepted m ++ [websocket];
     sent_text := sent_text m |}.

Definition disconnect (client_id : string) (m : t) : t :=
  match dict_get client_id (active_connections m) with
  | Some _ =>
      {| active_connections := dict_del client_id (active_connections m);
         accepted := accepted m; sent_text := sent_text m |}
  | None => m
  end.

(** [message] stands for [json.dumps(message)]. *)
Definition send_personal_message (message : string) (client_id : string) (m : t) : t :=
  match dict_get client_id (active_connections m) with
  | Some websocket =>
      {| active_connections := active_connections m; accepted := accepted m;
         sent_text := sent_text m ++ [(websocket, message)] |}
  | None => m
  end.

Definition broadcast (message : string) (m : t) : t :=
  {| active_connections := active_connections m; accepted := accepted m;
     sent_text := sent_text m
                  ++ map (fun kv => (snd kv, message)) (active_connections m) |}.

End ConnectionManager.

(** ** websocket.py: the notification channel *)

Module Notifications.

(** What one [pubsub.get_message(.., timeout=1.0)] gives: nothing within
    the timeout, a message whose data [json.loads] parses (the document)
    or does not ([None]), or an exception (the subscription failed and
    [pubsub] is [None], the connection to the broker is lost). *)
Inductive poll :=
| no_message
| message (data : option string)
| poll_raises.

(** What one [await websocket.receive_text()] with the [json.loads] and
    [message.get("type")] after it gives: a JSON object of type ping, any
    other text (other JSON, or text on which one of the two raises), or
    a [WebSocketDisconnect]. The call waits until the client sends. *)
Inductive frame :=
| ping
| other_text
| gone.

Inductive server_msg :=
| connected (text : string)
| notification (data : string)
| pong.

(** Where the handler stands when the inputs given are used up:
    [Listening] in one of its two waits, [ClientGone] after the receive
    reported the disconnect (the bare [except] passes over it and the
    loop goes on; what the socket then does on a send is not modelled),
    [Ended] after a [break]. *)
Inductive state := Listening | ClientGone | Ended.

(** The [while True] loop, lines 229-253, over the polls and the client
    frames in the order they are consumed. The poll comes first in every
    turn; a turn that relays or finds nothing then waits for one client
    frame. *)
Fixpoint listen (polls : list poll) (frames : list frame)
  : list server_msg * state :=
  match polls with
  | [] => ([], Listening)
  | p :: polls' =>
      match p with
      | poll_raises => ([], Ended)
      | message None => ([], Ended)
      | _ =>
          let relayed :=
            match p with message (Some data) => [notification data] | _ => [] end in
          match frames with
          | [] => (relayed, Listening)
          | ping :: frames' =>
              let (sent, st) := listen polls' frames' in
              (relayed ++ pong :: sent, st)
          | other_text :: frames' =>
              let (sent, st) := listen polls' frames' in
              (relayed ++ sent, st)
          | gone :: _ => (relayed, ClientGone)
          end
      end
  end.

(** [websocket_notifications]: [user_id] is what [verify_token] returns,
    [None] when it raises. Gives the close code if the channel is refused,
    otherwise the channel subscribed to, the frames sent and the state. *)
Definition websocket_notifications (user_id : option string)
    (polls : list poll) (frames : list frame)
  : Z + (string * list server_msg * state) :=
  match user_id with
  | None => inl 4001%Z
  | Some uid =>
      let (sent, st) := listen polls frames in
      inr (String.append "user_notifications:" uid,
           connected "Connected to notifications" :: sent, st)
  end.

End Notifications.

(** ** routers/analysis.py *)

Module Analysis.

(** The request body [VideoAnalysisCreate]. *)
Record VideoAnalysisCreate := { analysis_type : string }.

(** [select(Video).where(Video.id == video_id, Video.user_id == ..)]. *)
Definition select_video (video_id current_user_id : Z) (vids : list Video.t)
  : option Video.t :=
  find (fun v => Z.eqb (Video.id v) video_id
                 && Z.eqb (Video.user_id v) current_user_id) vids.

(** [VideoAnalysis.status.in_(["pending", "running"])]. *)
Definition pending_or_running (st : string) : bool :=
  String.eqb st "pending" || String.eqb st "running".

Definition select_existing (video_id : Z) (ty : string)
    (tbl : list VideoAnalysis.t) : option VideoAnalysis.t :=
  find (fun a => Z.eqb (VideoAnalysis.video_id a) video_id
                 && String.eqb (VideoAnalysis.analysis_type a) ty
                 && pending_or_running (VideoAnalysis.status a)) tbl.

(** [create_analysis]: [new_id] is the key the new row gets. Returns the
    table after the commit, the ids handed to [background_tasks.add_task]
    and the response. *)
Definition create_analysis (video_id : Z) (analysis_data : VideoAnalysisCreate)
    (current_user_id new_id : Z) (vids : list Video.t)
    (tbl : list VideoAnalysis.t)
  : list VideoAnalysis.t * list Z * http_result VideoAnalysis.t :=
  match select_video video_id current_user_id vids with
  | None => (tbl, [], HTTPException HTTP_404_NOT_FOUND "Video not found")
  | Some video =>
      if negb (String.eqb (Video.upload_status video) "completed") then
        (tbl, [], HTTPException HTTP_400_BAD_REQUEST "Video upload is not completed")
      else
        match select_existing video_id (analysis_type analysis_data) tbl with
        | Some existing_analysis =>
            (tbl, [],
             HTTPException HTTP_400_BAD_REQUEST
               ("Analysis of type '" ++ analysis_type analysis_data
                  ++ "' is already pending or running"))
        | None =>
            let analysis :=
              VideoAnalysis.mk new_id video_id (analysis_type analysis_data)
                "pending" None None None in
            (tbl ++ [analysis], [VideoAnalysis.id analysis], Ok analysis)
        end
  end.

(** [select(VideoAnalysis, Video).join(Video)]: the pairs of an analysis
    and the video its foreign key names. *)
Definition join_video (tbl : list VideoAnalysis.t) (vids : list Video.t)
  : list (VideoAnalysis.t * Video.t) :=
  flat_map (fun a =>
              map (fun v => (a, v))
                (List.filter (fun v => Z.eqb (Video.id v) (VideoAnalysis.video_id a)) vids))
           tbl.

(** [.where(VideoAnalysis.id == analysis_id, Video.user_id == ..)] and
    [.first()]. *)
Definition select_analysis (analysis_id current_user_id : Z)
    (vids : list Video.t) (tbl : list VideoAnalysis.t)
  : option (VideoAnalysis.t * Video.t) :=
  find (fun av => Z.eqb (VideoAnalysis.id (fst av)) analysis_id
                  && Z.eqb (Video.user_id (snd av)) current_user_id)
       (join_video tbl vids).

Definition get_analysis (analysis_id current_user_id : Z)
    (vids : list Video.t) (tbl : list VideoAnalysis.t)
  : http_result VideoAnalysis.t :=
  match select_analysis analysis_id current_user_id vids tbl with
  | None => HTTPException HTTP_404_NOT_FOUND "Analysis not found"
  | Some analysis_video => Ok (fst analysis_video)
  end.

(** [delete_analysis]: [db.delete] removes the row by primary key. *)
Definition delete_analysis (analysis_id current_user_id : Z)
    (vids : list Video.t) (tbl : list VideoAnalysis.t)
  : list VideoAnalysis.t * http_result string :=
  match select_analysis analysis_id current_user_id vids tbl with
  | None => (tbl, HTTPException HTTP_404_NOT_FOUND "Analysis not found")
  | Some analysis_video =>
      let analysis := fst analysis_video in
      if pending_or_running (VideoAnalysis.status analysis) then
        (tbl, HTTPException HTTP_400_BAD_REQUEST
                "Cannot delete running or pending analysis")
      else
        (List.filter (fun r => negb (Z.eqb (VideoAnalysis.id r)
                                           (VideoAnalysis.id analysis))) tbl,
         Ok "Analysis deleted successfully")
  end.

End Analysis.

(** ** routers/videos.py: one video *)

Module Videos.

(** [get_video]; its query is the one [create_analysis] starts with. *)
Definition get_video (video_id current_user_id : Z) (vids : list Video.t)
  : http_result Video.t :=
  match Analysis.select_video video_id current_user_id vids with
  | None => HTTPException HTTP_404_NOT_FOUND "Video not found"
  | Some video => Ok video
  end.

(** [delete_video]: [db.delete(video)] removes the row by primary key,
    and the relationship [Video.analyses] of models.py, declared with
    [cascade="all, delete-orphan"], takes the analyses of the video with
    it. The stored file is not touched. *)
Definition delete_video (video_id current_user_id : Z) (vids : list Video.t)
    (tbl : list VideoAnalysis.t)
  : list Video.t * list VideoAnalysis.t * http_result string :=
  match Analysis.select_video video_id current_user_id vids with
  | None => (vids, tbl, HTTPException HTTP_404_NOT_FOUND "Video not found")
  | Some video =>
      (List.filter (fun v => negb (Z.eqb (Video.id v) (Video.id video))) vids,
       List.filter (fun a => negb (Z.eqb (VideoAnalysis.video_id a) (Video.id video))) tbl,
       Ok "Video deleted successfully")
  end.

End Videos.

(** ** tasks.py: executing an analysis *)

Module Tasks.

Definition max_retries : nat := 3.

(** What the Content Analyzer does with a call: return a document or raise. *)
Inductive outcome :=
| returns (result_data : string)
| fails (e : string).

(** Where one execution of [_analyze_video_async] stands. Its awaits cut
    it into three atomic pieces: the select (lines 276-288), the write of
    [running] with the start notification up to the analyzer call (lines
    290-321), and what follows the analyzer's return (lines 323-370).
    [committed] is the row as the worker's ORM session last saw it. *)
Inductive pc :=
| queued (analysis_id : Z) (retries : nat)
| loaded (retries : nat) (analysis : VideoAnalysis.t) (video : Video.t)
| analyzing (retries : nat) (analysis : VideoAnalysis.t) (video : Video.t)
| finished (ret : string).

(** The shared world of the workers: the two tables, the tasks by
    [task.request.id], the calls made to the analyzer (worker, file path,
    kind) and the notifications published (user, type, analysis id). *)
Record sys := {
  video_analysis : list VideoAnalysis.t;
  videos : list Video.t;
  tasks : gmap string pc;
  analyzer_calls : list (string * (string * string));
  notifications : list (Z * (string * Z))
}.

(** [select(VideoAnalysis, Video).join(Video).where(VideoAnalysis.id == ..)]. *)
Definition select_join (analysis_id : Z) (s : sys)
  : option (VideoAnalysis.t * Video.t) :=
  match find (fun a => Z.eqb (VideoAnalysis.id a) analysis_id) (video_analysis s) with
  | None => None
  | Some a =>
      match find (fun v => Z.eqb (Video.id v) (VideoAnalysis.video_id a)) (videos s) with
      | None => None
      | Some v => Some (a, v)
      end
  end.

(** A column is part of the UPDATE only if its value differs from the one
    the ORM session loaded or last committed. *)
Definition column {A} `{EqDecision A} (committed current row : A) : A :=
  if bool_decide (committed = current) then row else current.

Definition flush (committed current : VideoAnalysis.t)
    (tbl : list VideoAnalysis.t) : list VideoAnalysis.t :=
  map (fun r =>
         if Z.eqb (VideoAnalysis.id r) (VideoAnalysis.id current) then
           VideoAnalysis.mk (VideoAnalysis.id r) (VideoAnalysis.video_id r)
             (VideoAnalysis.analysis_type r)
             (column (VideoAnalysis.status committed)
                (VideoAnalysis.status current) (VideoAnalysis.status r))
             (column (VideoAnalysis.result committed)
                (VideoAnalysis.result current) (VideoAnalysis.result r))
             (column (VideoAnalysis.error_message committed)
                (VideoAnalysis.error_message current) (VideoAnalysis.error_message r))
             (column (VideoAnalysis.worker_id committed)
                (VideoAnalysis.worker_id current) (VideoAnalysis.worker_id r))
         else r) tbl.

Definition set_pc (w : string) (p : pc) (s : sys) : sys :=
  {| video_analysis := video_analysis s; videos := videos s;
     tasks := <[w := p]> (tasks s);
     analyzer_calls := analyzer_calls s; notifications := notifications s |}.

Definition commit (committed current : VideoAnalysis.t) (s : sys) : sys :=
  {| video_analysis := flush committed current (video_analysis s);
     videos := videos s; tasks := tasks s;
     analyzer_calls := analyzer_calls s; notifications := notifications s |}.

Definition notify (user_id : Z) (type : string) (analysis_id : Z) (s : sys) : sys :=
  {| video_analysis := video_analysis s; videos := videos s; tasks := tasks s;
     analyzer_calls := analyzer_calls s;
     notifications := notifications s ++ [(user_id, (type, analysis_id))] |}.

Definition call_analyzer (w : string) (v : Video.t) (a : VideoAnalysis.t) (s : sys) : sys :=
  {| video_analysis := video_analysis s; videos := videos s; tasks := tasks s;
     analyzer_calls :=
       analyzer_calls s ++ [(w, (Video.file_path v, VideoAnalysis.analysis_type a))];
     notifications := notifications s |}.

(** One atomic piece of the execution of task [w]; [o] is what the analyzer
    answers if this piece is the one that awaits it. *)
Definition step (w : string) (o : outcome) (s : sys) : sys :=
  match tasks s !! w with
  | None => s
  | Some (queued analysis_id n) =>
      match select_join analysis_id s with
      | None => set_pc w (finished "Analysis not found") s
      | Some (analysis, video) => set_pc w (loaded n analysis video) s
      end
  | Some (loaded n analysis video) =>
      let running := VideoAnalysis.set_running w analysis in
      let s := commit analysis running s in
      let s := notify (Video.user_id video) "analysis_started"
                 (VideoAnalysis.id analysis) s in
      let s := call_analyzer w video running s in
      set_pc w (analyzing n running video) s
  | Some (analyzing n analysis video) =>
      match o with
      | returns result_data =>
          let done := VideoAnalysis.set_completed result_data analysis in
          let s := commit analysis done s in
          let s := notify (Video.user_id video) "analysis_completed"
                     (VideoAnalysis.id analysis) s in
          set_pc w (finished "completed") s
      | fails e =>
          let failed := VideoAnalysis.set_failed e analysis in
          let s := commit analysis failed s in
          let s := notify (Video.user_id video) "analysis_failed"
                     (VideoAnalysis.id analysis) s in
          (* [raise task.retry(countdown=60, exc=e)] *)
          if Nat.ltb n max_retries then
            set_pc w (queued (VideoAnalysis.id analysis) (S n)) s
          else set_pc w (finished e) s
      end
  | Some (finished _) => s
  end.

(** An interleaving of the workers: who moves next, and the analyzer's
    answer for that move. *)
Fixpoint run (sched : list (string * outcome)) (s : sys) : sys :=
  match sched with
  | [] => s
  | (w, o) :: sched' => run sched' (step w o s)
  end.


End Tasks.

(** ** Notions used by the statements *)

Module Notions.
Import Websocket.

(** Two connection states agree on everything the written file depends on. *)
Definition same_upload (c1 c2 : conn) : Prop :=
  received_chunks c1 = received_chunks c2
  /\ chunk_data c1 = chunk_data c2
  /\ files c1 = files c2
  /\ UploadSession.total_chunks (upload_session c1)
     = UploadSession.total_chunks (upload_session c2)
  /\ UploadSession.status (upload_session c1)
     = UploadSession.status (upload_session c2).

(** While the loop is running and something has been received, the count
    has not reached the total (the loop leaves as soon as it does) and the
    total is not zero (the first chunk would have raised). *)
Definition running_inv (c : conn) : Prop :=
  received_chunks c <> ∅ ->
  UploadSession.total_chunks (upload_session c) <> 0%Z
  /\ len (received_chunks c) <> UploadSession.total_chunks (upload_session c).



(** The terminal states of an upload session as the code spells them. *)
Definition terminal (st : string) : bool :=
  String.eqb st "completed" || String.eqb st "cancelled" || String.eqb st "expired".

(** The row of job [a] once an attempt of task [w] on it has ended with [o]. *)
Definition ended (o : Tasks.outcome) (w : string) (a : VideoAnalysis.t)
  : VideoAnalysis.t :=
  match o with
  | Tasks.returns r =>
      VideoAnalysis.mk (VideoAnalysis.id a) (VideoAnalysis.video_id a)
        (VideoAnalysis.analysis_type a) "completed" (Some r)
        (VideoAnalysis.error_message a) (Some w)
  | Tasks.fails e =>
      VideoAnalysis.mk (VideoAnalysis.id a) (VideoAnalysis.video_id a)
        (VideoAnalysis.analysis_type a) "failed" (VideoAnalysis.result a)
        (Some e) (Some w)
  end.

(** Where the task stands after its attempt number [n] ended with [o]. *)
Definition next_pc (o : Tasks.outcome) (analysis_id : Z) (n : nat) : Tasks.pc :=
  match o with
  | Tasks.returns _ => Tasks.finished "completed"
  | Tasks.fails e =>
      if Nat.ltb n Tasks.max_retries then Tasks.queued analysis_id (S n)
      else Tasks.finished e
  end.

(** The type of the notification that closes an attempt. *)
Definition closing (o : Tasks.outcome) : string :=
  match o with
  | Tasks.returns _ => "analysis_completed"
  | Tasks.fails _ => "analysis_failed"
  end.

(** Task state [p] is about job [analysis_id]. *)
Definition on_job (analysis_id : Z) (p : Tasks.pc) : bool :=
  match p with
  | Tasks.queued i _ => Z.eqb i analysis_id
  | Tasks.loaded _ a _ => Z.eqb (VideoAnalysis.id a) analysis_id
  | Tasks.analyzing _ a _ => Z.eqb (VideoAnalysis.id a) analysis_id
  | Tasks.finished _ => false
  end.

(** No task of the system is about job [analysis_id]. *)
Definition idle (analysis_id : Z) (s : Tasks.sys) : Prop :=
  forall w p, Tasks.tasks s !! w = Some p -> on_job analysis_id p = false.

(** The columns of a job that identify it and its work. *)
Definition job_key (a : VideoAnalysis.t) : Z * Z * string :=
  (VideoAnalysis.id a, VideoAnalysis.video_id a, VideoAnalysis.analysis_type a).

(** At most one job of a (video, kind) is pending or running: two rows in
    flight for the same pair are the same row. *)
Definition one_in_flight (tbl : list VideoAnalysis.t) : Prop :=
  forall (i j : nat) (a b : VideoAnalysis.t),
    tbl !! i = Some a -> tbl !! j = Some b ->
    Analysis.pending_or_running (VideoAnalysis.status a) = true ->
    Analysis.pending_or_running (VideoAnalysis.status b) = true ->
    VideoAnalysis.video_id a = VideoAnalysis.video_id b ->
    VideoAnalysis.analysis_type a = VideoAnalysis.analysis_type b ->
    i = j.

(** The system [s] after the job API changed the job table to [tbl]. *)
Definition with_jobs (tbl : list VideoAnalysis.t) (s : Tasks.sys) : Tasks.sys :=
  {| Tasks.video_analysis := tbl; Tasks.videos := Tasks.videos s;
     Tasks.tasks := Tasks.tasks s;
     Tasks.analyzer_calls := Tasks.analyzer_calls s;
     Tasks.notifications := Tasks.notifications s |}.

(** Session row [r] with its progress counter and status replaced where a
    new value is given; every other column is kept. *)
Definition patch (n : option Z) (st : option string) (r : UploadSession.t)
  : UploadSession.t :=
  UploadSession.mk (UploadSession.id r) (UploadSession.user_id r)
    (UploadSession.filename r) (UploadSession.file_size r)
    (UploadSession.chunk_size r) (UploadSession.total_chunks r)
    (default (UploadSession.uploaded_chunks r) n)
    (default (UploadSession.status r) st)
    (UploadSession.session_token r) (UploadSession.expires_at r).

(** The counter a connection has committed: none before its first chunk,
    then the number of distinct indices it received. *)
Definition counted (c : conn) : option Z :=
  if decide (received_chunks c = ∅) then None else Some (len (received_chunks c)).

(** The stored sessions and the handler's own copy are those of the
    start, patched in the rows of session [s] with the connection's
    counter and with status [st]. *)
Definition tracked (s : UploadSession.t) (tbl : list UploadSession.t)
    (st : option string) (c : conn) : Prop :=
  upload_sessions c = update_session (UploadSession.id s) (patch (counted c) st) tbl
  /\ upload_session c = patch (counted c) st s.

(** The connection has written no file, stored no video and queued no
    analysis. *)
Definition untouched (vids : list Video.t) (c : conn) : Prop :=
  files c = [] /\ videos c = vids /\ published c = [].

(** What a completed upload leaves: one file assembled from the buffer,
    one video row for it carrying the declared size, one message on the
    analysis queue. *)
Definition completed_upload (e : env) (vids : list Video.t)
    (s : UploadSession.t) (c : conn) : Prop :=
  files c = [(file_path e, assemble (UploadSession.total_chunks s) (chunk_data c))]
  /\ videos c
     = vids ++ [Video.mk (new_video_id e) (UploadSession.user_id s)
                  (unique_filename e) (UploadSession.filename s) (file_path e)
                  (UploadSession.file_size s) "video/mp4" "completed"]
  /\ published c = [("video_analysis_queue", (new_video_id e, "metadata_extraction"))]
  /\ len (received_chunks c) = UploadSession.total_chunks s
  /\ (0 < UploadSession.total_chunks s)%Z.

(** How a connection on session [s] can stand: still running, or ended in
    one of three ways. *)
Definition connection_outcome (e : env) (tbl : list UploadSession.t)
    (vids : list Video.t) (s : UploadSession.t) (r : conn * ctl) : Prop :=
  received_chunks r.1 = dom (chunk_data r.1)
  /\ match r.2 with
     | Continue => untouched vids r.1 /\ tracked s tbl None r.1
     | Break =>
         (completed_upload e vids s r.1 /\ tracked s tbl (Some "completed") r.1)
         \/ (untouched vids r.1 /\ tracked s tbl (Some "cancelled") r.1)
         \/ (untouched vids r.1 /\ tracked s tbl None r.1)
     end.

(** A progress frame reports a count between one and the total of the
    session; other frames are not constrained. *)
Definition progress_within (total : Z) (m : server_msg) : Prop :=
  match m with
  | progress _ uploaded_chunks total_chunks _ =>
      (0 < uploaded_chunks <= total_chunks)%Z /\ total_chunks = total
  | _ => True
  end.

(** What the endpoint did to the stored row [r], given the session it
    served, the counter it committed and the status it set. *)
Definition stored_row (s : UploadSession.t) (n : option Z) (st : option string)
    (r : UploadSession.t) : UploadSession.t :=
  if Z.eqb (UploadSession.id r) (UploadSession.id s) then patch n st r else r.

(** While the loop runs on a session with total [total], fewer chunks
    than that are in and all progress frames sent are within it. *)
Definition frames_inv (total : Z) (c : conn) : Prop :=
  Forall (progress_within total) (sent c)
  /\ (len (received_chunks c) < total)%Z
  /\ UploadSession.total_chunks (upload_session c) = total.

(** Frames of the notification channel that relay a published message. *)
Definition is_notification (m : Notifications.server_msg) : bool :=
  match m with Notifications.notification _ => true | _ => false end.

(** A poll that neither raises nor carries data that does not parse. *)
Definition healthy (p : Notifications.poll) : bool :=
  match p with
  | Notifications.no_message => true
  | Notifications.message (Some _) => true
  | _ => false
  end.

(** What one turn of a healthy exchange sends: the notification polled,
    if any, then the pong if the client's frame was a ping. *)
Definition turn (p : Notifications.poll) (f : Notifications.frame)
  : list Notifications.server_msg :=
  match p with
  | Notifications.message (Some data) => [Notifications.notification data]
  | _ => []
  end
  ++ match f with Notifications.ping => [Notifications.pong] | _ => [] end.

End Notions.

(** ** Concrete sessions, tables and schedules used as test inputs *)

Module Scenario.

Definition env0 : Websocket.env :=
  {| Websocket.unique_filename := "Zm9vYmFy.mp4";
     Websocket.file_path := "/app/storage/7/Zm9vYmFy.mp4";
     Websocket.new_video_id := 500 |}.

(** A session of user 7 for a file of [n] chunks of one byte. *)
Definition session (n : Z) (st : string) (expires : Z) : UploadSession.t :=
  UploadSession.mk 1 7 "clip.mp4" n 1 n 0 st "tok" expires.

(** The session of the specification's example: ten million bytes in
    chunks of 1,048,576 bytes. *)
Definition ten_megabytes : UploadSession.t :=
  UploadSession.mk 1 7 "clip.mp4" 10000000 1048576 10 0 "active" "tok" 1000.

Definition letter (i : Z) : bytes :=
  if Z.eqb i 0 then [Byte.x61] else if Z.eqb i 1 then [Byte.x62] else [Byte.x7a].

Definition video1 : Video.t :=
  Video.mk 1 7 "Zm9vYmFy.mp4" "clip.mp4" "/app/storage/7/Zm9vYmFy.mp4" 2
    "video/mp4" "completed".

Definition job (st : string) : VideoAnalysis.t :=
  VideoAnalysis.mk 100 1 "metadata_extraction" st None None None.

(** Two deliveries of the task for job 100, which is pending. *)
Definition two_workers : Tasks.sys :=
  {| Tasks.video_analysis := [job "pending"];
     Tasks.videos := [video1];
     Tasks.tasks := {[ "w1" := Tasks.queued 100 0; "w2" := Tasks.queued 100 0 ]};
     Tasks.analyzer_calls := [];
     Tasks.notifications := [] |}.

Definition ok : Tasks.outcome := Tasks.returns "{}".

(** Two jobs of the same video, one pending with its task queued, one
    completed that no task is about. *)
Definition two_jobs : Tasks.sys :=
  {| Tasks.video_analysis :=
       [job "pending";
        VideoAnalysis.mk 101 1 "scene_detection" "completed" (Some "{}") None (Some "w0")];
     Tasks.videos := [video1];
     Tasks.tasks := {[ "w1" := Tasks.queued 100 0 ]};
     Tasks.analyzer_calls := [];
     Tasks.notifications := [] |}.

(** Job 100 has failed once and its task waits for the retry. *)
Definition retry_pending : Tasks.sys :=
  {| Tasks.video_analysis :=
       [VideoAnalysis.mk 100 1 "metadata_extraction" "failed" None
          (Some "boom") (Some "w1")];
     Tasks.videos := [video1];
     Tasks.tasks := {[ "w1" := Tasks.queued 100 1 ]};
     Tasks.analyzer_calls := [];
     Tasks.notifications := [] |}.

End Scenario.

(** * Properties *)

(** ** Facts about [find], shared by the router proofs *)

Module ListFacts.

Lemma find_none_all {A} (p : A -> bool) (l : list A) :
  (forall x, x ∈ l -> p x = false) -> find p l = None.
Proof.
  induction l as [| x l IH]; intros H; [reflexivity |].
  cbn [find]. rewrite (H x) by set_solver. apply IH. intros y Hy. apply H. set_solver.
Qed.

Lemma find_some_first {A} (p : A -> bool) (l : list A) :
  (exists x, x ∈ l /\ p x = true) -> exists y, find p l = Some y.
Proof.
  intros (x & Hx & Hp). induction l as [| z l IH]; [by apply elem_of_nil in Hx |].
  cbn [find]. destruct (p z) eqn:Hz; [eauto |].
  apply IH. apply elem_of_cons in Hx as [-> | Hx]; [congruence | exact Hx].
Qed.

Lemma find_map_same {A} (p : A -> bool) (f : A -> A) (l : list A) :
  (forall x, p (f x) = p x) -> find p (map f l) = option_map f (find p l).
Proof.
  intros Hp. induction l as [| x l IH]; [reflexivity |].
  cbn [map find]. rewrite Hp. destruct (p x); [reflexivity | exact IH].
Qed.

Lemma find_map_fixed {A} (p : A -> bool) (f : A -> A) (l : list A) :
  (forall x, p (f x) = p x) -> (forall x, p x = true -> f x = x) ->
  find p (map f l) = find p l.
Proof.
  intros Hp Hfix. rewrite find_map_same by exact Hp.
  destruct (find p l) as [x |] eqn:Hx; [| reflexivity].
  cbn. f_equal. apply Hfix. by apply find_some in Hx as [_ Hx].
Qed.

Lemma find_app_none {A} (p : A -> bool) (l l' : list A) :
  find p l = None -> find p (l ++ l') = find p l'.
Proof.
  induction l as [| x l IH]; [reflexivity |]. cbn [find app].
  destruct (p x); [discriminate | exact IH].
Qed.

Lemma find_app_some {A} (p : A -> bool) (l l' : list A) (x : A) :
  find p l = Some x -> find p (l ++ l') = Some x.
Proof.
  induction l as [| y l IH]; [discriminate |]. cbn [find app].
  destruct (p y); [trivial | exact IH].
Qed.

Lemma find_filter {A} (p q : A -> bool) (l : list A) :
  find p (List.filter q l) = find (fun x => q x && p x) l.
Proof.
  induction l as [| x l IH]; [reflexivity |]. cbn [List.filter find].
  destruct (q x); cbn [find andb]; [destruct (p x); [reflexivity | exact IH] | exact IH].
Qed.

Lemma find_map {A B} (p : B -> bool) (f : A -> B) (l : list A) :
  find p (map f l) = option_map f (find (fun x => p (f x)) l).
Proof.
  induction l as [| x l IH]; [reflexivity |]. cbn [map find].
  destruct (p (f x)); [reflexivity | exact IH].
Qed.

Lemma find_ext_all {A} (p q : A -> bool) (l : list A) :
  (forall x, p x = q x) -> find p l = find q l.
Proof.
  intros H. induction l as [| x l IH]; [reflexivity |]. cbn [find].
  rewrite H, IH. reflexivity.
Qed.

End ListFacts.

(** ** Shared facts about the chunk loop *)

Module WebsocketFacts.
Import Websocket.

(** Split on every conditional the goal still shows. *)
Ltac case_ifs :=
  repeat match goal with |- context [if ?t then _ else _] => destruct t end.

Lemma len_add_fresh (i : Z) (rc : gset Z) :
  i ∉ rc -> len ({[i]} ∪ rc) = (len rc + 1)%Z.
Proof.
  intros Hi. unfold len.
  rewrite size_union by set_solver. rewrite size_singleton. lia.
Qed.

Lemma len_add_known (i : Z) (rc : gset Z) :
  i ∈ rc -> {[i]} ∪ rc = rc.
Proof. intros Hi. apply set_eq. set_solver. Qed.

Lemma handle_chunk e c i b :
  UploadSession.total_chunks (upload_session c) <> 0%Z ->
  handle_message e c (chunk i b) =
    if Z.eqb (len ({[i]} ∪ received_chunks c))
             (UploadSession.total_chunks (upload_session c))
    then (complete_upload e (after_chunk c i b), Break)
    else (after_chunk c i b, Continue).
Proof.
  intros Hn. unfold handle_message, after_chunk. cbn.
  destruct (Z.eqb_spec (UploadSession.total_chunks (upload_session c)) 0);
    [contradiction | reflexivity].
Qed.

Lemma after_chunk_received c i b :
  received_chunks (after_chunk c i b) = {[i]} ∪ received_chunks c.
Proof. reflexivity. Qed.

Lemma after_chunk_data c i b :
  chunk_data (after_chunk c i b) = <[i := b]> (chunk_data c).
Proof. reflexivity. Qed.

Lemma after_chunk_total c i b :
  UploadSession.total_chunks (upload_session (after_chunk c i b))
  = UploadSession.total_chunks (upload_session c).
Proof. reflexivity. Qed.

Lemma after_chunk_files c i b : files (after_chunk c i b) = files c.
Proof. reflexivity. Qed.

Lemma py_range_elem (n i : Z) : i ∈ py_range n <-> (0 <= i < n)%Z.
Proof.
  unfold py_range. rewrite list_elem_of_In, in_map_iff. split.
  - intros (k & <- & Hk). apply in_seq in Hk. lia.
  - intros Hi. exists (Z.to_nat i). split; [lia |]. apply in_seq. lia.
Qed.

Lemma py_range_NoDup (n : Z) : List.NoDup (py_range n).
Proof.
  unfold py_range. apply Finite.Injective_map_NoDup; [| apply seq_NoDup].
  intros x y. lia.
Qed.

Lemma py_range_length (n : Z) : (0 <= n)%Z -> Z.of_nat (length (py_range n)) = n.
Proof. intros. unfold py_range. rewrite length_map, length_seq. lia. Qed.

Lemma assemble_ext n (cd : gmap Z bytes) (data : Z -> bytes) :
  (forall i, (0 <= i < n)%Z -> cd !! i = Some (data i)) ->
  assemble n cd = flat_map data (py_range n).
Proof.
  intros H. unfold assemble.
  assert (Hr : forall i, i ∈ py_range n -> (0 <= i < n)%Z)
    by (intros i; apply py_range_elem).
  induction (py_range n) as [| i r IH]; [reflexivity |].
  cbn [flat_map]. rewrite (H i) by (apply Hr; set_solver).
  f_equal. apply IH. intros k Hk. apply Hr. set_solver.
Qed.

Section Loop.
Context (e : env) (data : Z -> bytes).

(** Distinct fresh chunks, as many as are still missing: the loop ends on
    the last of them and writes the buffer in index order. *)
Lemma receive_fresh_chunks (l : list Z) :
  forall c,
    l <> [] ->
    NoDup l ->
    (forall i, i ∈ l -> i ∉ received_chunks c) ->
    (len (received_chunks c) + Z.of_nat (length l))%Z
      = UploadSession.total_chunks (upload_session c) ->
    exists c',
      receive_loop e c (map (fun i => chunk i (data i)) l) = (c', Break)
      /\ (exists cd,
            files c' = files c ++ [(file_path e,
               assemble (UploadSession.total_chunks (upload_session c)) cd)]
            /\ (forall i, i ∈ l -> cd !! i = Some (data i))
            /\ (forall i, i ∉ l -> cd !! i = chunk_data c !! i))
      /\ UploadSession.status (upload_session c') = "completed"
      /\ (exists pre vid, sent c' = pre ++ [upload_complete vid (unique_filename e)
                                        "Upload completed successfully"]).
Proof.
  induction l as [| i l IH]; intros c Hne Hnd Hfresh Hcount; [done |].
  apply NoDup_cons in Hnd as [Hil Hnd].
  assert (Hi : i ∉ received_chunks c) by (apply Hfresh; set_solver).
  assert (Hn : UploadSession.total_chunks (upload_session c) <> 0%Z).
  { rewrite <- Hcount. unfold len. cbn [length]. lia. }
  cbn [map receive_loop]. rewrite handle_chunk by exact Hn.
  rewrite len_add_fresh by exact Hi.
  destruct l as [| j l'].
  - cbn [length] in Hcount.
    replace (len (received_chunks c) + 1 =? _)%Z with true
      by (symmetry; apply Z.eqb_eq; lia).
    eexists. split; [reflexivity |]. split; [| split].
    + exists (<[i := data i]> (chunk_data c)). split; [reflexivity |]. split.
      * intros k Hk. apply list_elem_of_singleton in Hk as ->.
        apply lookup_insert_eq.
      * intros k Hk. apply lookup_insert_ne. set_solver.
    + reflexivity.
    + cbn. eexists _, _. reflexivity.
  - replace (len (received_chunks c) + 1 =? _)%Z with false
      by (symmetry; apply Z.eqb_neq; cbn [length] in Hcount; lia).
    destruct (IH (after_chunk c i (data i))) as (c' & Hrun & Hfiles & Hst & Hsent).
    + done.
    + exact Hnd.
    + intros k Hk. rewrite after_chunk_received.
      assert (k <> i) by (intros ->; contradiction).
      specialize (Hfresh k). set_solver.
    + rewrite after_chunk_received, after_chunk_total, len_add_fresh by exact Hi.
      cbn [length] in *. lia.
    + exists c'. split; [exact Hrun |]. split; [| split; [exact Hst |]].
      * destruct Hfiles as (cd & Hf & Hin & Hout). exists cd.
        rewrite after_chunk_total, after_chunk_files in Hf.
        split; [exact Hf |]. split.
        -- intros k Hk. apply elem_of_cons in Hk as [-> | Hk]; [| by apply Hin].
           rewrite (Hout i Hil), after_chunk_data. apply lookup_insert_eq.
        -- intros k Hk. rewrite Hout by set_solver.
           rewrite after_chunk_data. apply lookup_insert_ne. set_solver.
      * destruct Hsent as (pre & vid & Hs). eauto.
Qed.

End Loop.

End WebsocketFacts.

Module UploadChannel.
Import Websocket WebsocketFacts Notions.

(** C1. In the chunk loop of a connection opened for a session with at
    least one chunk (lines 103-178, entered with both collections empty
    and with the file path fixed at lines 93-101), for every arrival
    order that is a permutation of the indices 0 .. total_chunks-1, the
    loop is left on the last chunk, the session is marked completed and
    one file is written to that path whose content is the concatenation
    of the chunk bytes in ascending index order; the arrival order does
    not show in it. *)
Theorem C1_assembled_in_index_order
    (e : env) (tbl : list UploadSession.t) (vids : list Video.t)
    (s : UploadSession.t) (data : Z -> bytes) (order : list Z) :
  (0 < UploadSession.total_chunks s)%Z ->
  Permutation order (py_range (UploadSession.total_chunks s)) ->
  exists c',
    receive_loop e (open_conn tbl vids s)
      (map (fun i => chunk i (data i)) order) = (c', Break)
    /\ files c' = [(file_path e,
                    flat_map data (py_range (UploadSession.total_chunks s)))]
    /\ UploadSession.status (upload_session c') = "completed".
Proof.
  intros Hpos Hperm.
  set (n := UploadSession.total_chunks s) in *.
  destruct (receive_fresh_chunks e data order (open_conn tbl vids s))
    as (c' & Hrun & (cd & Hf & Hin & _) & Hst & _).
  - intros ->. apply Permutation_nil in Hperm.
    assert (Hlen : Z.of_nat (length (py_range n)) = n) by (apply py_range_length; lia).
    rewrite Hperm in Hlen. cbn in Hlen. lia.
  - rewrite NoDup_ListNoDup. apply (Permutation_NoDup (Permutation_sym Hperm)).
    apply py_range_NoDup.
  - intros i _. cbn. set_solver.
  - cbn [open_conn received_chunks upload_session]. unfold len.
    rewrite size_empty, (Permutation_length Hperm). fold n.
    rewrite py_range_length by lia. lia.
  - exists c'. split; [exact Hrun |]. split; [| exact Hst].
    rewrite Hf. cbn [open_conn files upload_session app]. fold n.
    do 2 f_equal. apply assemble_ext. intros i Hi. apply Hin.
    rewrite list_elem_of_In. apply (Permutation_in _ (Permutation_sym Hperm)).
    apply list_elem_of_In, py_range_elem. exact Hi.
Qed.

(** The theorem at the specification's example: the ten chunks of a file of
    ten million bytes, sent in reverse order. *)
Lemma C1_witness :
  exists c',
    receive_loop Scenario.env0
      (open_conn [Scenario.ten_megabytes] [] Scenario.ten_megabytes)
      (map (fun i => chunk i (Scenario.letter i)) [9; 8; 7; 6; 5; 4; 3; 2; 1; 0]%Z)
    = (c', Break)
    /\ files c' = [(file_path Scenario.env0,
                    flat_map Scenario.letter
                      (py_range (UploadSession.total_chunks Scenario.ten_megabytes)))]
    /\ UploadSession.status (upload_session c') = "completed".
Proof.
  apply (C1_assembled_in_index_order Scenario.env0
           [Scenario.ten_megabytes] [] Scenario.ten_megabytes
           Scenario.letter [9; 8; 7; 6; 5; 4; 3; 2; 1; 0]%Z).
  - reflexivity.
  - apply (Permutation_sym (Permutation_rev (py_range 10))).
Defined.

End UploadChannel.

(** ** Re-delivery of a chunk *)

Module Redelivery.
Import Websocket WebsocketFacts Notions.

Lemma handle_message_inv e c ev c' :
  running_inv c -> handle_message e c ev = (c', Continue) -> running_inv c'.
Proof.
  intros Hinv. destruct ev as [i b | | | | x]; cbn [handle_message];
    try discriminate.
  - destruct (Z.eqb_spec (UploadSession.total_chunks
        (upload_session (commit_session
           (UploadSession.set_uploaded_chunks
              (len (received_chunks (store_chunk i b c)))) (store_chunk i b c)))) 0)
      as [| Hn]; [discriminate |].
    match goal with |- context [if ?t then _ else _] => destruct t eqn:Hfull end;
      [discriminate |].
    intros [= <-] _. split; [exact Hn |]. apply Z.eqb_neq. exact Hfull.
  - by intros [= <-].
Qed.

Lemma receive_loop_inv e pre :
  forall c c', running_inv c -> receive_loop e c pre = (c', Continue) -> running_inv c'.
Proof.
  induction pre as [| ev pre IH]; intros c c' Hinv; cbn [receive_loop].
  - by intros [= <-].
  - destruct (handle_message e c ev) as [c1 [|]] eqn:Hh; [| discriminate].
    apply IH. eapply handle_message_inv; eauto.
Qed.

Lemma open_conn_inv tbl vids s : running_inv (open_conn tbl vids s).
Proof. intros H. contradiction H. reflexivity. Qed.

Lemma handle_same_upload e c1 c2 ev :
  same_upload c1 c2 ->
  (handle_message e c1 ev).2 = (handle_message e c2 ev).2
  /\ same_upload (handle_message e c1 ev).1 (handle_message e c2 ev).1.
Proof.
  destruct c1 as [t1 v1 [] r1 d1 s1 f1 p1], c2 as [t2 v2 [] r2 d2 s2 f2 p2].
  intros (Hr & Hd & Hf & Ht & Hs). cbn in Hr, Hd, Hf, Ht, Hs. subst.
  destruct ev as [i b | | | | x]; cbn [handle_message]; cbn.
  - case_ifs; cbn; unfold same_upload; cbn; repeat split; reflexivity.
  - unfold same_upload; cbn; repeat split; reflexivity.
  - unfold same_upload; cbn; repeat split; reflexivity.
  - unfold same_upload; cbn; repeat split; reflexivity.
  - unfold same_upload; cbn; repeat split; reflexivity.
Qed.

Lemma receive_same_upload e evs :
  forall c1 c2, same_upload c1 c2 ->
    (receive_loop e c1 evs).2 = (receive_loop e c2 evs).2
    /\ same_upload (receive_loop e c1 evs).1 (receive_loop e c2 evs).1.
Proof.
  induction evs as [| ev evs IH]; intros c1 c2 Hs; cbn [receive_loop]; [by split |].
  destruct (handle_same_upload e c1 c2 ev Hs) as [Hk Hs'].
  destruct (handle_message e c1 ev) as [c1' k1], (handle_message e c2 ev) as [c2' k2].
  cbn in Hk, Hs'. subst k2. destruct k1; [by apply IH | by split].
Qed.

(** C2. In a running connection, a chunk message for an index already
    received leaves the received set and the committed count as they are,
    replaces the buffered bytes of that index by the new ones, writes no
    file and keeps the loop running; and when the bytes are those already
    buffered (a repeated delivery), whatever the client sends afterwards
    ends the same way and writes the same file as without the repeat. *)
Theorem C2_redelivery_idempotent
    (e : env) (tbl : list UploadSession.t) (vids : list Video.t)
    (s : UploadSession.t) (pre : list client_event) (c : conn)
    (i : Z) (b : bytes) :
  receive_loop e (open_conn tbl vids s) pre = (c, Continue) ->
  i ∈ received_chunks c ->
  exists c',
    handle_message e c (chunk i b) = (c', Continue)
    /\ received_chunks c' = received_chunks c
    /\ len (received_chunks c') = len (received_chunks c)
    /\ UploadSession.uploaded_chunks (upload_session c') = len (received_chunks c)
    /\ chunk_data c' = <[i := b]> (chunk_data c)
    /\ files c' = files c
    /\ (chunk_data c !! i = Some b ->
        forall evs,
          (receive_loop e c (chunk i b :: evs)).2 = (receive_loop e c evs).2
          /\ files (receive_loop e c (chunk i b :: evs)).1
             = files (receive_loop e c evs).1
          /\ chunk_data (receive_loop e c (chunk i b :: evs)).1
             = chunk_data (receive_loop e c evs).1).
Proof.
  intros Hrun Hi.
  assert (Hinv : running_inv c)
    by (eapply receive_loop_inv; [apply open_conn_inv | exact Hrun]).
  destruct Hinv as [Hn Hlen]; [set_solver |].
  assert (Hsame : {[i]} ∪ received_chunks c = received_chunks c)
    by (apply len_add_known; exact Hi).
  assert (Hh : handle_message e c (chunk i b) = (after_chunk c i b, Continue)).
  { rewrite handle_chunk by exact Hn. rewrite Hsame.
    destruct (Z.eqb_spec (len (received_chunks c))
                (UploadSession.total_chunks (upload_session c))); [contradiction | done]. }
  assert (Hup : chunk_data c !! i = Some b -> same_upload (after_chunk c i b) c).
  { intros Hb. unfold same_upload.
    rewrite after_chunk_received, after_chunk_data, after_chunk_files, Hsame.
    rewrite insert_id by exact Hb. repeat split; reflexivity. }
  exists (after_chunk c i b). split; [exact Hh |].
  rewrite after_chunk_received, after_chunk_data, after_chunk_files, Hsame.
  do 2 (split; [reflexivity |]).
  split; [cbn; by rewrite Hsame |].
  do 2 (split; [reflexivity |]).
  intros Hb evs. cbn [receive_loop]. rewrite Hh.
  destruct (receive_same_upload e evs _ _ (Hup Hb)) as (Hk & _ & Hd & Hf & _).
  auto.
Qed.

(** The theorem on a session of three chunks, after chunk 0 arrived, when
    chunk 0 is delivered again with the same bytes. *)
Lemma C2_witness :
  let c := after_chunk (open_conn [Scenario.session 3 "active" 1000] []
                          (Scenario.session 3 "active" 1000)) 0 (Scenario.letter 0) in
  exists c',
    handle_message Scenario.env0 c (chunk 0 (Scenario.letter 0)) = (c', Continue)
    /\ received_chunks c' = received_chunks c
    /\ len (received_chunks c') = len (received_chunks c)
    /\ UploadSession.uploaded_chunks (upload_session c') = len (received_chunks c)
    /\ chunk_data c' = <[0%Z := Scenario.letter 0]> (chunk_data c)
    /\ files c' = files c
    /\ (chunk_data c !! 0%Z = Some (Scenario.letter 0) ->
        forall evs,
          (receive_loop Scenario.env0 c (chunk 0 (Scenario.letter 0) :: evs)).2
          = (receive_loop Scenario.env0 c evs).2
          /\ files (receive_loop Scenario.env0 c (chunk 0 (Scenario.letter 0) :: evs)).1
             = files (receive_loop Scenario.env0 c evs).1
          /\ chunk_data (receive_loop Scenario.env0 c (chunk 0 (Scenario.letter 0) :: evs)).1
             = chunk_data (receive_loop Scenario.env0 c evs).1).
Proof.
  intros c.
  apply (C2_redelivery_idempotent Scenario.env0 [Scenario.session 3 "active" 1000] []
           (Scenario.session 3 "active" 1000) [chunk 0 (Scenario.letter 0)] c
           0 (Scenario.letter 0)).
  - vm_compute. reflexivity.
  - subst c. rewrite after_chunk_received. apply elem_of_union_l, elem_of_singleton. reflexivity.
Defined.

End Redelivery.

(** ** Indices outside the session's range, and the replies to a chunk *)

Module ChunkReplies.
Import Websocket WebsocketFacts Notions.

Lemma assemble_insert_outside (n i : Z) (b : bytes) (cd : gmap Z bytes) :
  ~ (0 <= i < n)%Z -> assemble n (<[i := b]> cd) = assemble n cd.
Proof.
  intros Hout. unfold assemble.
  assert (Hr : forall k, k ∈ py_range n -> k <> i).
  { intros k Hk ->. apply py_range_elem in Hk. contradiction. }
  induction (py_range n) as [| k r IH]; [reflexivity |].
  cbn [flat_map]. rewrite lookup_insert_ne by (apply not_eq_sym, Hr; set_solver).
  f_equal. apply IH. intros k' Hk'. apply Hr. set_solver.
Qed.

(** The claim of C5 fails: in the loop of a connection opened for a session
    of two chunks, a chunk message with index 5 is answered by a progress
    frame, its bytes are buffered, 5 enters the received set and the
    committed count becomes 1. *)
Lemma C5_out_of_range_is_accepted :
  exists c',
    receive_loop Scenario.env0
      (open_conn [Scenario.session 2 "active" 1000] []
         (Scenario.session 2 "active" 1000))
      [chunk 5 (Scenario.letter 5)]
    = (c', Continue)
    /\ ~ (0 <= 5 < UploadSession.total_chunks (Scenario.session 2 "active" 1000))%Z
    /\ chunk_data c' !! 5%Z = Some (Scenario.letter 5)
    /\ 5%Z ∈ received_chunks c'
    /\ len (received_chunks c') = 1%Z
    /\ UploadSession.uploaded_chunks <$> upload_sessions c' = [1%Z]
    /\ (exists info q, sent c' = [info; progress 5 1 2 q]).
Proof.
  exists (after_chunk (open_conn [Scenario.session 2 "active" 1000] []
                         (Scenario.session 2 "active" 1000)) 5 (Scenario.letter 5)).
  split; [vm_compute; reflexivity |].
  split; [cbn; lia |].
  rewrite after_chunk_received, after_chunk_data.
  split; [apply lookup_insert_eq |].
  split; [apply elem_of_union_l, elem_of_singleton; reflexivity |].
  split; [vm_compute; reflexivity |].
  split; [vm_compute; reflexivity |].
  eexists _, _. vm_compute. reflexivity.
Qed.

(** C5 (amended). A chunk message whose index lies outside
    [0, total_chunks) is treated like any other: its bytes are buffered
    under that index, the index joins the received set, the committed
    count is the size of that set (one more than before for a new index),
    and on a session with a non-zero total the reply is a progress frame.
    Only the assembly leaves it out: buffering it does not change what
    would be written. *)
Theorem C5_any_index_is_buffered (e : env) (c : conn) (i : Z) (b : bytes) :
  ~ (0 <= i < UploadSession.total_chunks (upload_session c))%Z ->
  let c' := (handle_message e c (chunk i b)).1 in
  chunk_data c' !! i = Some b
  /\ i ∈ received_chunks c'
  /\ UploadSession.uploaded_chunks (upload_session c') = len (received_chunks c')
  /\ (i ∉ received_chunks c ->
      len (received_chunks c') = (len (received_chunks c) + 1)%Z)
  /\ (UploadSession.total_chunks (upload_session c) <> 0%Z ->
      exists q rest,
        sent c' = sent c ++ progress i (len (received_chunks c'))
                              (UploadSession.total_chunks (upload_session c)) q :: rest)
  /\ assemble (UploadSession.total_chunks (upload_session c)) (chunk_data c')
     = assemble (UploadSession.total_chunks (upload_session c)) (chunk_data c).
Proof.
  intros Hout c'.
  assert (Hshape : received_chunks c' = {[i]} ∪ received_chunks c
                   /\ chunk_data c' = <[i := b]> (chunk_data c)
                   /\ UploadSession.uploaded_chunks (upload_session c')
                      = len ({[i]} ∪ received_chunks c)).
  { subst c'. cbn [handle_message].
    case_ifs; cbn; repeat split; reflexivity. }
  destruct Hshape as (Hr & Hd & Hu). rewrite Hr, Hd, Hu.
  split; [apply lookup_insert_eq |].
  split; [set_solver |].
  split; [reflexivity |].
  split; [apply len_add_fresh |].
  split; [| by apply assemble_insert_outside].
  intros Hn. subst c'. rewrite handle_chunk by exact Hn.
  destruct (len ({[i]} ∪ received_chunks c) =? _)%Z; cbn; eexists _, _;
    rewrite <- ?app_assoc; reflexivity.
Qed.

(** The theorem for index -1 on a session of two chunks. *)
Lemma C5_witness :
  let c := open_conn [Scenario.session 2 "active" 1000] []
             (Scenario.session 2 "active" 1000) in
  let c' := (handle_message Scenario.env0 c (chunk (-1) (Scenario.letter 0))).1 in
  chunk_data c' !! (-1)%Z = Some (Scenario.letter 0)
  /\ (-1)%Z ∈ received_chunks c'
  /\ UploadSession.uploaded_chunks (upload_session c') = len (received_chunks c')
  /\ ((-1)%Z ∉ received_chunks c ->
      len (received_chunks c') = (len (received_chunks c) + 1)%Z)
  /\ (UploadSession.total_chunks (upload_session c) <> 0%Z ->
      exists q rest,
        sent c' = sent c ++ progress (-1) (len (received_chunks c'))
                              (UploadSession.total_chunks (upload_session c)) q :: rest)
  /\ assemble (UploadSession.total_chunks (upload_session c)) (chunk_data c')
     = assemble (UploadSession.total_chunks (upload_session c)) (chunk_data c).
Proof.
  intros c.
  apply (C5_any_index_is_buffered Scenario.env0 c (-1) (Scenario.letter 0)).
  cbn. lia.
Defined.




End ChunkReplies.

(** ** Session life cycle: opening, expiry, cancelling, ownership *)

Module SessionLifecycle.
Import Websocket Notions ListFacts.

(** The claim of C7 fails: a declared size of zero is not refused; a
    session with no chunks is created and stored. *)
Lemma C7_zero_size_is_accepted :
  exists s,
    Upload.create_upload_session
      {| Upload.filename := "clip.mp4"; Upload.file_size := 0;
         Upload.chunk_size := 1048576 |} 7 1 "tok" 0 []
    = ([s], Ok s)
    /\ ~ (0 < UploadSession.file_size s)%Z
    /\ UploadSession.total_chunks s = 0%Z
    /\ UploadSession.status s = "active".
Proof. eexists. split; [reflexivity |]. cbn. repeat split; [lia]. Qed.

(** C7 (amended). Opening a session checks neither size. For every
    non-zero chunk size a session is stored and returned, owned by the
    caller, in state active, with nothing uploaded, expiring 24 hours
    after creation, and with total_chunks the floor of
    (file_size + chunk_size - 1) / chunk_size; when both sizes are
    positive that number is the ceiling of file_size / chunk_size. *)
Theorem C7_session_created_unvalidated
    (session_data : Upload.UploadSessionCreate)
    (current_user_id new_id : Z) (token : string) (now : Z)
    (tbl : list UploadSession.t) :
  Upload.chunk_size session_data <> 0%Z ->
  exists s,
    Upload.create_upload_session session_data current_user_id new_id token now tbl
    = (tbl ++ [s], Ok s)
    /\ UploadSession.user_id s = current_user_id
    /\ UploadSession.session_token s = token
    /\ UploadSession.status s = "active"
    /\ UploadSession.uploaded_chunks s = 0%Z
    /\ UploadSession.expires_at s = (now + 24 * 3600 * 1000000)%Z
    /\ UploadSession.total_chunks s
       = ((Upload.file_size session_data + Upload.chunk_size session_data - 1)
            / Upload.chunk_size session_data)%Z
    /\ ((0 < Upload.file_size session_data)%Z ->
        (0 < Upload.chunk_size session_data)%Z ->
        (Upload.chunk_size session_data * (UploadSession.total_chunks s - 1)
           < Upload.file_size session_data
           <= Upload.chunk_size session_data * UploadSession.total_chunks s)%Z).
Proof.
  intros Hcs. unfold Upload.create_upload_session.
  destruct (Z.eqb_spec (Upload.chunk_size session_data) 0) as [| _]; [contradiction |].
  eexists. split; [reflexivity |]. cbn.
  do 6 (split; [reflexivity |]).
  intros Hfs Hpos.
  pose proof (Z.div_mod (Upload.file_size session_data
                         + Upload.chunk_size session_data - 1)
                (Upload.chunk_size session_data) Hcs) as Hdm.
  pose proof (Z.mod_pos_bound (Upload.file_size session_data
                         + Upload.chunk_size session_data - 1)
                (Upload.chunk_size session_data) Hpos) as Hb.
  lia.
Qed.

(** The theorem at the specification's example sizes. *)
Lemma C7_witness :
  exists s,
    Upload.create_upload_session
      {| Upload.filename := "clip.mp4"; Upload.file_size := 10000000;
         Upload.chunk_size := 1048576 |} 7 1 "tok" 0 []
    = ([] ++ [s], Ok s)
    /\ UploadSession.user_id s = 7%Z
    /\ UploadSession.session_token s = "tok"
    /\ UploadSession.status s = "active"
    /\ UploadSession.uploaded_chunks s = 0%Z
    /\ UploadSession.expires_at s = (0 + 24 * 3600 * 1000000)%Z
    /\ UploadSession.total_chunks s = ((10000000 + 1048576 - 1) / 1048576)%Z
    /\ ((0 < 10000000)%Z -> (0 < 1048576)%Z ->
        (1048576 * (UploadSession.total_chunks s - 1) < 10000000
           <= 1048576 * UploadSession.total_chunks s)%Z).
Proof.
  apply (C7_session_created_unvalidated
           {| Upload.filename := "clip.mp4"; Upload.file_size := 10000000;
              Upload.chunk_size := 1048576 |} 7 1 "tok" 0 []).
  cbn. lia.
Defined.

(** The example of the specification: ten million bytes in chunks of
    1,048,576 bytes make ten chunks. *)
Example total_chunks_ten_megabytes :
  UploadSession.total_chunks <$>
    (Upload.create_upload_session
       {| Upload.filename := "clip.mp4"; Upload.file_size := 10000000;
          Upload.chunk_size := 1048576 |} 7 1 "tok" 0 []).1
  = [10%Z].
Proof. reflexivity. Qed.




(** The handler does keep to active sessions: past the expiry test, a
    session in any other state is refused (line 73) and left as it is. *)
Lemma websocket_refuses_inactive e tbl vids s evs :
  UploadSession.status s <> "active" ->
  serve e tbl vids s evs
  = (reject tbl vids s (error "Session is not active"), Break).
Proof.
  intros Hst. unfold serve.
  by destruct (String.eqb_spec (UploadSession.status s) "active").
Qed.

(** C8 at its failing input: the HTTP cancel request on a completed
    session of the caller succeeds and rewrites the stored status from
    completed, a terminal state, to cancelled. *)
Theorem C8_cancel_overwrites_completed :
  terminal (UploadSession.status (Scenario.session 2 "completed" 1000)) = true
  /\ Upload.cancel_upload_session "tok" 7 [Scenario.session 2 "completed" 1000]
     = ([Scenario.session 2 "cancelled" 1000], Ok "Upload session cancelled").
Proof. split; reflexivity. Qed.

(** C10. A caller who owns no session with the given token gets 404 from
    both the query and the cancel request, whether or not another user has
    a session with that token, and the stored sessions are unchanged. *)
Theorem C10_foreign_token_not_found
    (session_token : string) (current_user_id now : Z)
    (tbl : list UploadSession.t) :
  (forall r, r ∈ tbl -> UploadSession.session_token r = session_token ->
             UploadSession.user_id r <> current_user_id) ->
  Upload.get_upload_session session_token current_user_id now tbl
  = HTTPException HTTP_404_NOT_FOUND "Upload session not found"
  /\ Upload.cancel_upload_session session_token current_user_id tbl
     = (tbl, HTTPException HTTP_404_NOT_FOUND "Upload session not found").
Proof.
  intros Hforeign.
  assert (Hnone : Upload.select_owned session_token current_user_id tbl = None).
  { apply find_none_all. intros r Hr.
    destruct (String.eqb_spec (UploadSession.session_token r) session_token) as [Ht |];
      [| reflexivity].
    cbn. apply Z.eqb_neq. by apply Hforeign. }
  unfold Upload.get_upload_session, Upload.cancel_upload_session.
  by rewrite Hnone.
Qed.

(** The theorem for user 8 asking for the token of user 7's session. *)
Lemma C10_witness :
  Upload.get_upload_session "tok" 8 10 [Scenario.session 2 "active" 1000]
  = HTTPException HTTP_404_NOT_FOUND "Upload session not found"
  /\ Upload.cancel_upload_session "tok" 8 [Scenario.session 2 "active" 1000]
     = ([Scenario.session 2 "active" 1000],
        HTTPException HTTP_404_NOT_FOUND "Upload session not found").
Proof.
  apply (C10_foreign_token_not_found "tok" 8 10 [Scenario.session 2 "active" 1000]).
  intros r Hr _. apply list_elem_of_singleton in Hr. subst r. cbn. lia.
Defined.

End SessionLifecycle.

(** ** Analysis jobs: submission and execution *)

Module Jobs.
Import Notions ListFacts.

(** The claim of C4 fails on the status code: the second submission for a
    (video, kind) with a pending job is refused with 400, not 409. *)
Lemma C4_duplicate_gets_400 :
  let r := Analysis.create_analysis 1
             {| Analysis.analysis_type := "metadata_extraction" |} 7 101
             [Scenario.video1] [Scenario.job "pending"] in
  r = ([Scenario.job "pending"], [],
       HTTPException 400
         "Analysis of type 'metadata_extraction' is already pending or running")
  /\ forall detail, r.2 <> HTTPException HTTP_409_CONFLICT detail.
Proof. split; [reflexivity |]. intros detail. cbn. discriminate. Qed.

(** C4 (amended). For a completed video of the caller: when a job of the
    same kind for that video is pending or running, the submission is
    refused with 400 Bad Request, no row is added and nothing is queued;
    when there is none (the earlier ones being completed or failed, or
    absent), a pending job is added, queued for execution and returned. *)
Theorem C4_submit_in_flight_or_new
    (video_id : Z) (analysis_data : Analysis.VideoAnalysisCreate)
    (current_user_id new_id : Z) (vids : list Video.t)
    (tbl : list VideoAnalysis.t) (video : Video.t) :
  Analysis.select_video video_id current_user_id vids = Some video ->
  Video.upload_status video = "completed" ->
  let in_flight (a : VideoAnalysis.t) :=
    VideoAnalysis.video_id a = video_id
    /\ VideoAnalysis.analysis_type a = Analysis.analysis_type analysis_data
    /\ (VideoAnalysis.status a = "pending" \/ VideoAnalysis.status a = "running") in
  ((exists a, a ∈ tbl /\ in_flight a) ->
   Analysis.create_analysis video_id analysis_data current_user_id new_id vids tbl
   = (tbl, [],
      HTTPException HTTP_400_BAD_REQUEST
        ("Analysis of type '" ++ Analysis.analysis_type analysis_data
           ++ "' is already pending or running")))
  /\ ((forall a, a ∈ tbl -> ~ in_flight a) ->
      let analysis :=
        VideoAnalysis.mk new_id video_id (Analysis.analysis_type analysis_data)
          "pending" None None None in
      Analysis.create_analysis video_id analysis_data current_user_id new_id vids tbl
      = (tbl ++ [analysis], [new_id], Ok analysis)).
Proof.
  intros Hvid Hdone in_flight.
  assert (Hp : forall a,
             (Z.eqb (VideoAnalysis.video_id a) video_id
              && String.eqb (VideoAnalysis.analysis_type a)
                   (Analysis.analysis_type analysis_data)
              && Analysis.pending_or_running (VideoAnalysis.status a)) = true
             <-> in_flight a).
  { intros a. unfold in_flight, Analysis.pending_or_running.
    rewrite !andb_true_iff, orb_true_iff, Z.eqb_eq, !String.eqb_eq. tauto. }
  unfold Analysis.create_analysis. rewrite Hvid, Hdone.
  change (negb ("completed" =? "completed")%string) with false. cbv iota.
  split.
  - intros (a & Ha & Hin).
    destruct (find_some_first
                (fun a => Z.eqb (VideoAnalysis.video_id a) video_id
                          && String.eqb (VideoAnalysis.analysis_type a)
                               (Analysis.analysis_type analysis_data)
                          && Analysis.pending_or_running (VideoAnalysis.status a)) tbl)
      as [y Hy]; [exists a; split; [exact Ha | by apply Hp] |].
    unfold Analysis.select_existing. by rewrite Hy.
  - intros Hnone. cbv zeta. unfold Analysis.select_existing.
    rewrite find_none_all; [reflexivity |].
    intros a Ha. apply not_true_is_false. rewrite Hp. by apply Hnone.
Qed.

(** The theorem for a video whose earlier job of the same kind is completed. *)
Lemma C4_witness :
  let in_flight (a : VideoAnalysis.t) :=
    VideoAnalysis.video_id a = 1%Z
    /\ VideoAnalysis.analysis_type a = "metadata_extraction"
    /\ (VideoAnalysis.status a = "pending" \/ VideoAnalysis.status a = "running") in
  ((exists a, a ∈ [Scenario.job "completed"] /\ in_flight a) ->
   Analysis.create_analysis 1 {| Analysis.analysis_type := "metadata_extraction" |}
     7 101 [Scenario.video1] [Scenario.job "completed"]
   = ([Scenario.job "completed"], [],
      HTTPException HTTP_400_BAD_REQUEST
        ("Analysis of type '" ++ "metadata_extraction"
           ++ "' is already pending or running")))
  /\ ((forall a, a ∈ [Scenario.job "completed"] -> ~ in_flight a) ->
      let analysis :=
        VideoAnalysis.mk 101 1 "metadata_extraction" "pending" None None None in
      Analysis.create_analysis 1 {| Analysis.analysis_type := "metadata_extraction" |}
        7 101 [Scenario.video1] [Scenario.job "completed"]
      = ([Scenario.job "completed"] ++ [analysis], [101%Z], Ok analysis)).
Proof.
  apply (C4_submit_in_flight_or_new 1
           {| Analysis.analysis_type := "metadata_extraction" |} 7 101
           [Scenario.video1] [Scenario.job "completed"] Scenario.video1).
  - reflexivity.
  - reflexivity.
Defined.

(** After the first job reached a terminal state a new submission goes
    through, as the specification's example has it. *)
Example resubmit_after_completion :
  Analysis.create_analysis 1 {| Analysis.analysis_type := "metadata_extraction" |}
    7 101 [Scenario.video1] [Scenario.job "completed"]
  = ([Scenario.job "completed";
      VideoAnalysis.mk 101 1 "metadata_extraction" "pending" None None None],
     [101%Z],
     Ok (VideoAnalysis.mk 101 1 "metadata_extraction" "pending" None None None)).
Proof. reflexivity. Qed.

Import Tasks.




End Jobs.

(** ** One execution of an analysis, from pickup to its end *)

Module JobExecution.
Import Tasks ListFacts Notions.

(** The row of job [a] after a worker whose session holds [committed]
    wrote [current] back. *)
Lemma find_flush (analysis_id : Z) (committed current a : VideoAnalysis.t)
    (tbl : list VideoAnalysis.t) :
  VideoAnalysis.id current = analysis_id ->
  find (fun r => Z.eqb (VideoAnalysis.id r) analysis_id) tbl = Some a ->
  find (fun r => Z.eqb (VideoAnalysis.id r) analysis_id) (flush committed current tbl)
  = Some (VideoAnalysis.mk (VideoAnalysis.id a) (VideoAnalysis.video_id a)
            (VideoAnalysis.analysis_type a)
            (column (VideoAnalysis.status committed) (VideoAnalysis.status current)
               (VideoAnalysis.status a))
            (column (VideoAnalysis.result committed) (VideoAnalysis.result current)
               (VideoAnalysis.result a))
            (column (VideoAnalysis.error_message committed)
               (VideoAnalysis.error_message current) (VideoAnalysis.error_message a))
            (column (VideoAnalysis.worker_id committed)
               (VideoAnalysis.worker_id current) (VideoAnalysis.worker_id a))).
Proof.
  intros Hid Hfind. unfold flush. rewrite find_map_same.
  - rewrite Hfind. cbn [option_map].
    apply find_some in Hfind as [_ Ha]. apply Z.eqb_eq in Ha.
    rewrite Hid, Ha, Z.eqb_refl. reflexivity.
  - intros r. cbn. destruct (VideoAnalysis.id r =? VideoAnalysis.id current)%Z; reflexivity.
Qed.

Lemma column_same {A} `{EqDecision A} (committed current : A) :
  column committed current committed = current.
Proof. unfold column. case_bool_decide; congruence. Qed.

Lemma select_join_inv analysis_id s a v :
  select_join analysis_id s = Some (a, v) ->
  find (fun r => Z.eqb (VideoAnalysis.id r) analysis_id) (video_analysis s) = Some a
  /\ find (fun x => Z.eqb (Video.id x) (VideoAnalysis.video_id a)) (videos s) = Some v
  /\ VideoAnalysis.id a = analysis_id.
Proof.
  unfold select_join. intros H.
  destruct (find _ (video_analysis s)) as [a0 |] eqn:Ha; [| discriminate].
  destruct (find _ (videos s)) as [v0 |] eqn:Hv; [| discriminate].
  injection H as -> ->. repeat split; try assumption.
  apply find_some in Ha as [_ Ha]. by apply Z.eqb_eq in Ha.
Qed.

Section Steps.
Context (s : sys) (w : string).

Lemma step_queued o analysis_id n a v :
  tasks s !! w = Some (queued analysis_id n) ->
  select_join analysis_id s = Some (a, v) ->
  step w o s = set_pc w (loaded n a v) s.
Proof. intros Hq Hsel. unfold step. by rewrite Hq, Hsel. Qed.

Lemma step_loaded o n a v :
  tasks s !! w = Some (loaded n a v) ->
  step w o s
  = set_pc w (analyzing n (VideoAnalysis.set_running w a) v)
      (call_analyzer w v (VideoAnalysis.set_running w a)
         (notify (Video.user_id v) "analysis_started" (VideoAnalysis.id a)
            (commit a (VideoAnalysis.set_running w a) s))).
Proof. intros Hq. unfold step. by rewrite Hq. Qed.

Lemma step_returns r n a v :
  tasks s !! w = Some (analyzing n a v) ->
  step w (returns r) s
  = set_pc w (finished "completed")
      (notify (Video.user_id v) "analysis_completed" (VideoAnalysis.id a)
         (commit a (VideoAnalysis.set_completed r a) s)).
Proof. intros Hq. unfold step. by rewrite Hq. Qed.

Lemma step_fails e n a v :
  tasks s !! w = Some (analyzing n a v) ->
  step w (fails e) s
  = set_pc w (if Nat.ltb n max_retries
              then queued (VideoAnalysis.id a) (S n) else finished e)
      (notify (Video.user_id v) "analysis_failed" (VideoAnalysis.id a)
         (commit a (VideoAnalysis.set_failed e a) s)).
Proof. intros Hq. unfold step. rewrite Hq. by destruct (Nat.ltb n max_retries). Qed.

End Steps.

(** The state in which task [w] awaits the analyzer, two steps after it
    was queued on an existing job. *)
Lemma pickup s w analysis_id n a v o1 o2 :
  tasks s !! w = Some (queued analysis_id n) ->
  select_join analysis_id s = Some (a, v) ->
  step w o2 (step w o1 s)
  = set_pc w (analyzing n (VideoAnalysis.set_running w a) v)
      (call_analyzer w v (VideoAnalysis.set_running w a)
         (notify (Video.user_id v) "analysis_started" (VideoAnalysis.id a)
            (commit a (VideoAnalysis.set_running w a)
               (set_pc w (loaded n a v) s)))).
Proof.
  intros Hq Hsel. rewrite (step_queued s w o1 analysis_id n a v Hq Hsel).
  apply step_loaded. cbn. apply lookup_insert_eq.
Qed.

(** A whole attempt: the two steps of the pickup and the step that takes
    the analyzer's answer [o]. *)
Lemma attempt s w analysis_id n a v o1 o2 o :
  tasks s !! w = Some (queued analysis_id n) ->
  select_join analysis_id s = Some (a, v) ->
  let s' := step w o (step w o2 (step w o1 s)) in
  tasks s' = <[w := next_pc o analysis_id n]> (tasks s)
  /\ videos s' = videos s
  /\ analyzer_calls s'
     = analyzer_calls s ++ [(w, (Video.file_path v, VideoAnalysis.analysis_type a))]
  /\ notifications s'
     = notifications s ++ [(Video.user_id v, ("analysis_started", analysis_id));
                           (Video.user_id v, (closing o, analysis_id))]
  /\ select_join analysis_id s' = Some (ended o w a, v).
Proof.
  intros Hq Hsel s'.
  destruct (select_join_inv _ _ _ _ Hsel) as (Ha & Hv & Hid).
  assert (Hrow : forall fin,
             VideoAnalysis.id fin = analysis_id ->
             find (fun r => Z.eqb (VideoAnalysis.id r) analysis_id)
               (flush (VideoAnalysis.set_running w a) fin
                  (flush a (VideoAnalysis.set_running w a) (video_analysis s)))
             = Some (VideoAnalysis.mk (VideoAnalysis.id a) (VideoAnalysis.video_id a)
                       (VideoAnalysis.analysis_type a)
                       (column "running" (VideoAnalysis.status fin) "running")
                       (column (VideoAnalysis.result a) (VideoAnalysis.result fin)
                          (VideoAnalysis.result a))
                       (column (VideoAnalysis.error_message a)
                          (VideoAnalysis.error_message fin) (VideoAnalysis.error_message a))
                       (column (Some w) (VideoAnalysis.worker_id fin) (Some w)))).
  { intros fin Hfin.
    rewrite (find_flush analysis_id _ fin _ _ Hfin
               (find_flush analysis_id a (VideoAnalysis.set_running w a) a _ Hid Ha)).
    cbn. by rewrite !column_same. }
  subst s'. rewrite (pickup s w analysis_id n a v o1 o2 Hq Hsel).
  destruct o as [r | e].
  - rewrite (step_returns _ w r n _ v) by (cbn; apply lookup_insert_eq).
    cbn [set_pc notify commit call_analyzer tasks videos analyzer_calls
         notifications video_analysis next_pc closing ended].
    rewrite !insert_insert_eq, <- !app_assoc.
    change (VideoAnalysis.id (VideoAnalysis.set_running w a)) with (VideoAnalysis.id a).
    rewrite Hid. do 4 (split; [reflexivity |]).
    unfold select_join. cbn [video_analysis videos set_pc notify commit call_analyzer].
    rewrite Hrow by exact Hid. cbn. rewrite !column_same, Hv, Hid. reflexivity.
  - rewrite (step_fails _ w e n _ v) by (cbn; apply lookup_insert_eq).
    cbn [set_pc notify commit call_analyzer tasks videos analyzer_calls
         notifications video_analysis next_pc closing ended].
    rewrite !insert_insert_eq, <- !app_assoc.
    change (VideoAnalysis.id (VideoAnalysis.set_running w a)) with (VideoAnalysis.id a).
    rewrite Hid. do 4 (split; [reflexivity |]).
    unfold select_join. cbn [video_analysis videos set_pc notify commit call_analyzer].
    rewrite Hrow by exact Hid. cbn. rewrite !column_same, Hv, Hid. reflexivity.
Qed.





(** Retries run out. A freshly delivered task whose analyzer raises every
    time makes four attempts, the first and three retries; after the
    fourth the job is failed with the error stored, the task has ended
    and no further step of it changes anything. *)
Theorem retries_exhausted
    (s : sys) (w : string) (analysis_id : Z)
    (a : VideoAnalysis.t) (v : Video.t) (e : string) :
  tasks s !! w = Some (queued analysis_id 0) ->
  select_join analysis_id s = Some (a, v) ->
  let s' := run (repeat (w, fails e) 12) s in
  tasks s' !! w = Some (finished e)
  /\ analyzer_calls s'
     = analyzer_calls s
       ++ repeat (w, (Video.file_path v, VideoAnalysis.analysis_type a)) 4
  /\ (exists a',
        select_join analysis_id s' = Some (a', v)
        /\ VideoAnalysis.status a' = "failed"
        /\ VideoAnalysis.error_message a' = Some e)
  /\ (forall o, step w o s' = s').
Proof.
  intros Hq Hsel s'. subst s'. cbn [repeat run].
  destruct (attempt s w analysis_id 0 a v (fails e) (fails e) (fails e) Hq Hsel)
    as (Ht1 & _ & Hc1 & _ & Hj1).
  set (s1 := step w (fails e) (step w (fails e) (step w (fails e) s))) in *.
  assert (Hq1 : tasks s1 !! w = Some (queued analysis_id 1))
    by (rewrite Ht1, lookup_insert_eq; reflexivity).
  destruct (attempt s1 w analysis_id 1 _ v (fails e) (fails e) (fails e) Hq1 Hj1)
    as (Ht2 & _ & Hc2 & _ & Hj2).
  set (s2 := step w (fails e) (step w (fails e) (step w (fails e) s1))) in *.
  assert (Hq2 : tasks s2 !! w = Some (queued analysis_id 2))
    by (rewrite Ht2, lookup_insert_eq; reflexivity).
  destruct (attempt s2 w analysis_id 2 _ v (fails e) (fails e) (fails e) Hq2 Hj2)
    as (Ht3 & _ & Hc3 & _ & Hj3).
  set (s3 := step w (fails e) (step w (fails e) (step w (fails e) s2))) in *.
  assert (Hq3 : tasks s3 !! w = Some (queued analysis_id 3))
    by (rewrite Ht3, lookup_insert_eq; reflexivity).
  destruct (attempt s3 w analysis_id 3 _ v (fails e) (fails e) (fails e) Hq3 Hj3)
    as (Ht4 & _ & Hc4 & _ & Hj4).
  set (s4 := step w (fails e) (step w (fails e) (step w (fails e) s3))) in *.
  assert (Hend : tasks s4 !! w = Some (finished e))
    by (rewrite Ht4, lookup_insert_eq; reflexivity).
  split; [exact Hend |]. split; [| split].
  - rewrite Hc4, Hc3, Hc2, Hc1, <- !app_assoc. reflexivity.
  - eexists. split; [exact Hj4 |]. by split.
  - intros o. unfold step. by rewrite Hend.
Qed.

(** The theorem for the first delivery of the pending job of the example
    system. *)
Lemma retries_exhausted_witness :
  let s' := run (repeat ("w1", fails "boom") 12) Scenario.two_workers in
  tasks s' !! "w1" = Some (finished "boom")
  /\ analyzer_calls s'
     = analyzer_calls Scenario.two_workers
       ++ repeat ("w1", (Video.file_path Scenario.video1,
                         VideoAnalysis.analysis_type (Scenario.job "pending"))) 4
  /\ (exists a',
        select_join 100 s' = Some (a', Scenario.video1)
        /\ VideoAnalysis.status a' = "failed"
        /\ VideoAnalysis.error_message a' = Some "boom")
  /\ (forall o, step "w1" o s' = s').
Proof.
  apply (retries_exhausted Scenario.two_workers "w1" 100
           (Scenario.job "pending") Scenario.video1 "boom").
  - vm_compute. reflexivity.
  - vm_compute. reflexivity.
Defined.

Lemma flush_keys committed current tbl :
  map job_key (flush committed current tbl) = map job_key tbl.
Proof.
  unfold flush. rewrite map_map. apply map_ext. intros r.
  destruct (VideoAnalysis.id r =? VideoAnalysis.id current)%Z; reflexivity.
Qed.

Lemma flush_other analysis_id committed current tbl :
  VideoAnalysis.id current <> analysis_id ->
  find (fun r => Z.eqb (VideoAnalysis.id r) analysis_id) (flush committed current tbl)
  = find (fun r => Z.eqb (VideoAnalysis.id r) analysis_id) tbl.
Proof.
  intros Hne. unfold flush. apply find_map_fixed.
  - intros r. cbn. destruct (VideoAnalysis.id r =? VideoAnalysis.id current)%Z; reflexivity.
  - intros r Hr. apply Z.eqb_eq in Hr.
    destruct (Z.eqb_spec (VideoAnalysis.id r) (VideoAnalysis.id current)); [congruence | reflexivity].
Qed.

Lemma step_keys w o s :
  map job_key (video_analysis (step w o s)) = map job_key (video_analysis s).
Proof.
  unfold step. destruct (tasks s !! w) as [[i n | n a v | n a v | ret] |]; try reflexivity.
  - destruct (select_join i s) as [[a v] |]; reflexivity.
  - cbn. apply flush_keys.
  - destruct o as [r | e]; [| destruct (Nat.ltb n max_retries)]; cbn; apply flush_keys.
Qed.

(** The set of jobs is fixed during execution. Under every interleaving
    of the tasks and every behaviour of the analyzer, the job table keeps
    its rows in place with their id, video and kind: executing never adds
    or removes a job and never turns one job into another. *)
Theorem execution_keeps_jobs (sched : list (string * outcome)) (s : sys) :
  map job_key (video_analysis (run sched s)) = map job_key (video_analysis s).
Proof.
  revert s. induction sched as [| [w o] sched IH]; intros s; [reflexivity |].
  cbn [run]. rewrite IH. apply step_keys.
Qed.

Lemma step_idle analysis_id w o s :
  idle analysis_id s ->
  idle analysis_id (step w o s)
  /\ find (fun r => Z.eqb (VideoAnalysis.id r) analysis_id) (video_analysis (step w o s))
     = find (fun r => Z.eqb (VideoAnalysis.id r) analysis_id) (video_analysis s).
Proof.
  intros Hidle.
  assert (Hset : forall p s0, tasks s0 = tasks s -> on_job analysis_id p = false ->
                              idle analysis_id (set_pc w p s0)).
  { intros p s0 Hs0 Hp w' p' H'. cbn in H'. rewrite Hs0 in H'.
    destruct (decide (w = w')) as [-> | Hne].
    - rewrite lookup_insert_eq in H'. by injection H' as <-.
    - rewrite lookup_insert_ne in H' by exact Hne. by apply (Hidle w'). }
  unfold step. destruct (tasks s !! w) as [[i n | n a v | n a v | ret] |] eqn:Hw;
    try (split; [exact Hidle | reflexivity]).
  - pose proof (Hidle w _ Hw) as Hi. cbn in Hi.
    destruct (select_join i s) as [[a v] |] eqn:Hsel.
    + split; [| reflexivity]. apply Hset; [reflexivity |].
      destruct (select_join_inv _ _ _ _ Hsel) as (_ & _ & Hid). cbn. by rewrite Hid.
    + split; [| reflexivity]. by apply Hset.
  - pose proof (Hidle w _ Hw) as Hi. cbn in Hi. apply Z.eqb_neq in Hi. split.
    + apply Hset; [reflexivity |]. cbn. by apply Z.eqb_neq.
    + cbn. by apply flush_other.
  - pose proof (Hidle w _ Hw) as Hi. cbn in Hi.
    destruct o as [r | e].
    + split; [by apply Hset | cbn; apply flush_other; by apply Z.eqb_neq].
    + destruct (Nat.ltb n max_retries).
      * split; [by apply Hset | cbn; apply flush_other; by apply Z.eqb_neq].
      * split; [by apply Hset | cbn; apply flush_other; by apply Z.eqb_neq].
Qed.

(** Jobs do not disturb each other. A job that no task is about (none
    queued on it, none holding it) reads the same after any interleaving
    of the tasks of other jobs, whatever the analyzer answers. *)
Theorem idle_job_untouched
    (analysis_id : Z) (sched : list (string * outcome)) (s : sys) :
  idle analysis_id s ->
  find (fun r => Z.eqb (VideoAnalysis.id r) analysis_id) (video_analysis (run sched s))
  = find (fun r => Z.eqb (VideoAnalysis.id r) analysis_id) (video_analysis s).
Proof.
  revert s. induction sched as [| [w o] sched IH]; intros s Hidle; [reflexivity |].
  cbn [run]. destruct (step_idle analysis_id w o s Hidle) as [Hidle' Hfind].
  rewrite IH by exact Hidle'. exact Hfind.
Qed.

(** The theorem for the completed job 101 while the task of job 100 makes
    a failing and then a successful attempt. *)
Lemma idle_job_untouched_witness :
  let sched := [("w1", Scenario.ok); ("w1", Scenario.ok); ("w1", fails "boom");
                ("w1", Scenario.ok); ("w1", Scenario.ok); ("w1", Scenario.ok)] in
  find (fun r => Z.eqb (VideoAnalysis.id r) 101) (video_analysis (run sched Scenario.two_jobs))
  = find (fun r => Z.eqb (VideoAnalysis.id r) 101) (video_analysis Scenario.two_jobs).
Proof.
  intros sched. apply (idle_job_untouched 101 sched Scenario.two_jobs).
  intros w p H. unfold Scenario.two_jobs in H. cbn in H.
  apply lookup_singleton_Some in H as [_ <-]. reflexivity.
Defined.

End JobExecution.

(** ** The job API: reading, deleting, and submitting again *)

Module JobsApi.
Import Analysis ListFacts Notions.

(** The selection of one analysis over the join, by cases on the table. *)
Lemma select_analysis_cons analysis_id u vids a tbl :
  select_analysis analysis_id u vids (a :: tbl)
  = if Z.eqb (VideoAnalysis.id a) analysis_id then
      match find (fun v => Z.eqb (Video.id v) (VideoAnalysis.video_id a)
                           && Z.eqb (Video.user_id v) u) vids with
      | Some v => Some (a, v)
      | None => select_analysis analysis_id u vids tbl
      end
    else select_analysis analysis_id u vids tbl.
Proof.
  unfold select_analysis, join_video. cbn [flat_map].
  set (p := fun av : VideoAnalysis.t * Video.t =>
              Z.eqb (VideoAnalysis.id (fst av)) analysis_id
              && Z.eqb (Video.user_id (snd av)) u).
  assert (Hhead : find p (map (fun v => (a, v))
                    (List.filter (fun v => Z.eqb (Video.id v) (VideoAnalysis.video_id a)) vids))
                  = if Z.eqb (VideoAnalysis.id a) analysis_id then
                      option_map (fun v => (a, v))
                        (find (fun v => Z.eqb (Video.id v) (VideoAnalysis.video_id a)
                                        && Z.eqb (Video.user_id v) u) vids)
                    else None).
  { rewrite find_map, find_filter. subst p. cbn [fst snd].
    destruct (VideoAnalysis.id a =? analysis_id)%Z; cbn [andb].
    - reflexivity.
    - rewrite (find_none_all _ vids); [reflexivity |].
      intros v _. apply andb_false_r. }
  destruct (VideoAnalysis.id a =? analysis_id)%Z.
  - destruct (find _ vids) as [v |] eqn:Hv; cbn [option_map] in Hhead.
    + by apply find_app_some.
    + by apply find_app_none.
  - by apply find_app_none.
Qed.

Lemma select_analysis_nil analysis_id u vids :
  select_analysis analysis_id u vids [] = None.
Proof. reflexivity. Qed.

Lemma select_analysis_some analysis_id u vids tbl a v :
  select_analysis analysis_id u vids tbl = Some (a, v) ->
  a ∈ tbl /\ v ∈ vids /\ VideoAnalysis.id a = analysis_id
  /\ Video.id v = VideoAnalysis.video_id a /\ Video.user_id v = u.
Proof.
  induction tbl as [| x tbl IH]; [discriminate |].
  rewrite select_analysis_cons.
  destruct (Z.eqb_spec (VideoAnalysis.id x) analysis_id) as [Hx |].
  - destruct (find _ vids) as [v0 |] eqn:Hv.
    + intros [= <- <-]. apply find_some in Hv as [Hin Hp].
      apply andb_true_iff in Hp as [H1 H2]. apply Z.eqb_eq in H1, H2.
      rewrite <- list_elem_of_In in Hin. repeat split; try assumption. set_solver.
    + intros H. destruct (IH H) as (? & ?). split; [set_solver | assumption].
  - intros H. destruct (IH H) as (? & ?). split; [set_solver | assumption].
Qed.

Lemma select_analysis_app_fresh analysis_id u vids tbl a :
  (forall x, x ∈ tbl -> VideoAnalysis.id x <> analysis_id) ->
  select_analysis analysis_id u vids (tbl ++ [a])
  = select_analysis analysis_id u vids [a].
Proof.
  induction tbl as [| x tbl IH]; intros Hfresh; [reflexivity |].
  cbn [app]. rewrite select_analysis_cons.
  destruct (Z.eqb_spec (VideoAnalysis.id x) analysis_id) as [Hx |].
  - exfalso. apply (Hfresh x); [set_solver | exact Hx].
  - apply IH. intros y Hy. apply Hfresh. set_solver.
Qed.

Lemma select_analysis_filter analysis_id gone u vids tbl :
  select_analysis analysis_id u vids
    (List.filter (fun r => negb (Z.eqb (VideoAnalysis.id r) gone)) tbl)
  = if Z.eqb analysis_id gone then None else select_analysis analysis_id u vids tbl.
Proof.
  induction tbl as [| x tbl IH].
  - cbn. by destruct (analysis_id =? gone)%Z.
  - cbn [List.filter]. destruct (Z.eqb_spec (VideoAnalysis.id x) gone) as [Hx | Hx]; cbn [negb].
    + rewrite IH, select_analysis_cons.
      destruct (Z.eqb_spec analysis_id gone) as [| Hne]; [reflexivity |].
      destruct (Z.eqb_spec (VideoAnalysis.id x) analysis_id); [congruence | reflexivity].
    + rewrite !select_analysis_cons, IH.
      destruct (Z.eqb_spec analysis_id gone) as [-> |]; [| reflexivity].
      destruct (Z.eqb_spec (VideoAnalysis.id x) gone); [contradiction | reflexivity].
Qed.

(** Submit, then read and try to delete. After a submission is accepted
    (fresh key, completed video of the caller, nothing of that kind in
    flight) the caller reads the new pending job back by its id, cannot
    delete it while it is pending, and a second submission of the same
    kind for the same video is refused with 400, leaving the table as it
    is. *)
Theorem submitted_job_is_read_back_and_protected
    (video_id : Z) (analysis_data : VideoAnalysisCreate)
    (current_user_id new_id : Z) (vids : list Video.t)
    (tbl : list VideoAnalysis.t) (video : Video.t) :
  select_video video_id current_user_id vids = Some video ->
  Video.upload_status video = "completed" ->
  select_existing video_id (analysis_type analysis_data) tbl = None ->
  (forall x, x ∈ tbl -> VideoAnalysis.id x <> new_id) ->
  let analysis :=
    VideoAnalysis.mk new_id video_id (analysis_type analysis_data)
      "pending" None None None in
  let tbl' := tbl ++ [analysis] in
  create_analysis video_id analysis_data current_user_id new_id vids tbl
  = (tbl', [new_id], Ok analysis)
  /\ get_analysis new_id current_user_id vids tbl' = Ok analysis
  /\ delete_analysis new_id current_user_id vids tbl'
     = (tbl', HTTPException HTTP_400_BAD_REQUEST
                "Cannot delete running or pending analysis")
  /\ (forall id2,
        create_analysis video_id analysis_data current_user_id id2 vids tbl'
        = (tbl', [],
           HTTPException HTTP_400_BAD_REQUEST
             ("Analysis of type '" ++ analysis_type analysis_data
                ++ "' is already pending or running"))).
Proof.
  intros Hvid Hdone Hnone Hfresh analysis tbl'.
  assert (Hsel : select_analysis new_id current_user_id vids tbl' = Some (analysis, video)).
  { subst tbl'. rewrite select_analysis_app_fresh by exact Hfresh.
    rewrite select_analysis_cons. cbn [VideoAnalysis.id analysis VideoAnalysis.video_id].
    rewrite Z.eqb_refl. unfold select_video in Hvid. by rewrite Hvid. }
  split; [| split; [| split]].
  - unfold create_analysis. rewrite Hvid, Hdone, Hnone. reflexivity.
  - unfold get_analysis. by rewrite Hsel.
  - unfold delete_analysis. by rewrite Hsel.
  - intros id2. unfold create_analysis. rewrite Hvid, Hdone.
    change (negb ("completed" =? "completed")%string) with false. cbv iota.
    assert (Hex : select_existing video_id (analysis_type analysis_data) tbl'
                  = Some analysis).
    { unfold select_existing in *. subst tbl'. rewrite find_app_none by exact Hnone.
      cbn. by rewrite Z.eqb_refl, String.eqb_refl. }
    by rewrite Hex.
Qed.

(** The theorem for a first job of kind scene_detection on the example
    video, whose metadata job is completed. *)
Lemma submitted_job_witness :
  let analysis := VideoAnalysis.mk 101 1 "scene_detection" "pending" None None None in
  let tbl' := [Scenario.job "completed"] ++ [analysis] in
  create_analysis 1 {| analysis_type := "scene_detection" |} 7 101
    [Scenario.video1] [Scenario.job "completed"]
  = (tbl', [101%Z], Ok analysis)
  /\ get_analysis 101 7 [Scenario.video1] tbl' = Ok analysis
  /\ delete_analysis 101 7 [Scenario.video1] tbl'
     = (tbl', HTTPException HTTP_400_BAD_REQUEST
                "Cannot delete running or pending analysis")
  /\ (forall id2,
        create_analysis 1 {| analysis_type := "scene_detection" |} 7 id2
          [Scenario.video1] tbl'
        = (tbl', [],
           HTTPException HTTP_400_BAD_REQUEST
             ("Analysis of type '" ++ "scene_detection"
                ++ "' is already pending or running"))).
Proof.
  apply (submitted_job_is_read_back_and_protected 1
           {| analysis_type := "scene_detection" |} 7 101
           [Scenario.video1] [Scenario.job "completed"] Scenario.video1).
  - reflexivity.
  - reflexivity.
  - reflexivity.
  - intros x Hx. apply list_elem_of_singleton in Hx. subst x. cbn. lia.
Defined.

(** Deleting a finished job. A job of the caller that is neither pending
    nor running is deleted on request; afterwards nobody can read or
    delete it again (404), and every other job reads as before. *)
Theorem deleted_job_is_gone
    (analysis_id current_user_id : Z) (vids : list Video.t)
    (tbl : list VideoAnalysis.t) (a : VideoAnalysis.t) (v : Video.t) :
  select_analysis analysis_id current_user_id vids tbl = Some (a, v) ->
  pending_or_running (VideoAnalysis.status a) = false ->
  exists tbl',
    delete_analysis analysis_id current_user_id vids tbl
    = (tbl', Ok "Analysis deleted successfully")
    /\ (forall u, get_analysis analysis_id u vids tbl'
                  = HTTPException HTTP_404_NOT_FOUND "Analysis not found")
    /\ (forall u, delete_analysis analysis_id u vids tbl'
                  = (tbl', HTTPException HTTP_404_NOT_FOUND "Analysis not found"))
    /\ (forall other u, other <> analysis_id ->
                        get_analysis other u vids tbl' = get_analysis other u vids tbl).
Proof.
  intros Hsel Hterm.
  destruct (select_analysis_some _ _ _ _ _ _ Hsel) as (_ & _ & Hid & _).
  eexists. split.
  - unfold delete_analysis. rewrite Hsel. cbn [fst]. rewrite Hterm. reflexivity.
  - rewrite Hid. repeat split.
    + intros u. unfold get_analysis. by rewrite select_analysis_filter, Z.eqb_refl.
    + intros u. unfold delete_analysis. by rewrite select_analysis_filter, Z.eqb_refl.
    + intros other u Hne. unfold get_analysis. rewrite select_analysis_filter.
      by destruct (Z.eqb_spec other analysis_id).
Qed.

(** The theorem for the completed metadata job of the example video. *)
Lemma deleted_job_witness :
  exists tbl',
    delete_analysis 100 7 [Scenario.video1] [Scenario.job "completed"]
    = (tbl', Ok "Analysis deleted successfully")
    /\ (forall u, get_analysis 100 u [Scenario.video1] tbl'
                  = HTTPException HTTP_404_NOT_FOUND "Analysis not found")
    /\ (forall u, delete_analysis 100 u [Scenario.video1] tbl'
                  = (tbl', HTTPException HTTP_404_NOT_FOUND "Analysis not found"))
    /\ (forall other u, other <> 100%Z ->
                        get_analysis other u [Scenario.video1] tbl'
                        = get_analysis other u [Scenario.video1] [Scenario.job "completed"]).
Proof.
  apply (deleted_job_is_gone 100 7 [Scenario.video1] [Scenario.job "completed"]
           (Scenario.job "completed") Scenario.video1).
  - reflexivity.
  - reflexivity.
Defined.

(** Jobs are scoped by the owner of the video. A caller who owns no video
    that a job with the given id belongs to gets 404 from both reading and
    deleting, and the table is left as it is. *)
Theorem foreign_job_not_found
    (analysis_id current_user_id : Z) (vids : list Video.t)
    (tbl : list VideoAnalysis.t) :
  (forall a v, a ∈ tbl -> v ∈ vids -> VideoAnalysis.id a = analysis_id ->
               Video.id v = VideoAnalysis.video_id a ->
               Video.user_id v <> current_user_id) ->
  get_analysis analysis_id current_user_id vids tbl
  = HTTPException HTTP_404_NOT_FOUND "Analysis not found"
  /\ delete_analysis analysis_id current_user_id vids tbl
     = (tbl, HTTPException HTTP_404_NOT_FOUND "Analysis not found").
Proof.
  intros Hforeign.
  assert (Hnone : select_analysis analysis_id current_user_id vids tbl = None).
  { destruct (select_analysis _ _ _ _) as [[a v] |] eqn:Hsel; [| reflexivity].
    destruct (select_analysis_some _ _ _ _ _ _ Hsel) as (Ha & Hv & Hid & Hfk & Hu).
    by destruct (Hforeign a v Ha Hv Hid Hfk). }
  unfold get_analysis, delete_analysis. by rewrite Hnone.
Qed.

(** The theorem for user 8 and the job of user 7's video. *)
Lemma foreign_job_witness :
  get_analysis 100 8 [Scenario.video1] [Scenario.job "completed"]
  = HTTPException HTTP_404_NOT_FOUND "Analysis not found"
  /\ delete_analysis 100 8 [Scenario.video1] [Scenario.job "completed"]
     = ([Scenario.job "completed"],
        HTTPException HTTP_404_NOT_FOUND "Analysis not found").
Proof.
  apply (foreign_job_not_found 100 8 [Scenario.video1] [Scenario.job "completed"]).
  intros a v _ Hv _ _. apply list_elem_of_singleton in Hv. subst v. cbn. lia.
Defined.

(** Submissions keep jobs apart. If no two rows of one (video, kind) are
    in flight before a submission, none are after it, whatever it
    answers; and the table changes only when the answer is the new
    pending job, which is then its last row and the one queued. *)
Theorem submission_keeps_one_in_flight
    (video_id : Z) (analysis_data : VideoAnalysisCreate)
    (current_user_id new_id : Z) (vids : list Video.t)
    (tbl : list VideoAnalysis.t) :
  one_in_flight tbl ->
  let '(tbl', queue, response) :=
    create_analysis video_id analysis_data current_user_id new_id vids tbl in
  one_in_flight tbl'
  /\ match response with
     | Ok analysis =>
         tbl' = tbl ++ [analysis] /\ queue = [VideoAnalysis.id analysis]
         /\ VideoAnalysis.status analysis = "pending"
     | _ => tbl' = tbl /\ queue = []
     end.
Proof.
  intros Hinv. unfold create_analysis.
  destruct (select_video video_id current_user_id vids) as [video |]; [| by split].
  destruct (negb _); [by split |].
  destruct (select_existing video_id (analysis_type analysis_data) tbl)
    as [existing |] eqn:Hex; [by split |].
  split; [| by repeat split].
  set (new := VideoAnalysis.mk new_id video_id (analysis_type analysis_data)
                "pending" None None None).
  assert (Hclash : forall k x, tbl !! k = Some x ->
             pending_or_running (VideoAnalysis.status x) = true ->
             VideoAnalysis.video_id x = video_id ->
             VideoAnalysis.analysis_type x = analysis_type analysis_data -> False).
  { intros k x Hk Hp Hv Ht. unfold select_existing in Hex.
    assert (Hin : In x tbl) by (apply list_elem_of_In, list_elem_of_lookup; eauto).
    pose proof (find_none _ _ Hex x Hin) as Hx. cbn in Hx.
    rewrite Hv, Ht, Z.eqb_refl, String.eqb_refl, Hp in Hx. discriminate. }
  intros i j a b Hi Hj Hpa Hpb Hv Ht.
  apply lookup_app_Some in Hi as [Hi | [Hli Hi]];
    apply lookup_app_Some in Hj as [Hj | [Hlj Hj]].
  - by apply (Hinv i j a b).
  - apply list_lookup_singleton_Some in Hj as [_ <-].
    destruct (Hclash i a Hi Hpa); [by rewrite Hv | by rewrite Ht].
  - apply list_lookup_singleton_Some in Hi as [_ <-].
    destruct (Hclash j b Hj Hpb); [by rewrite <- Hv | by rewrite <- Ht].
  - apply list_lookup_singleton_Some in Hi as [Hi _].
    apply list_lookup_singleton_Some in Hj as [Hj _]. lia.
Qed.

(** The theorem for a second kind of job on the example video, whose
    metadata job is pending. *)
Lemma submission_keeps_one_in_flight_witness :
  let '(tbl', queue, response) :=
    create_analysis 1 {| analysis_type := "scene_detection" |} 7 101
      [Scenario.video1] [Scenario.job "pending"] in
  one_in_flight tbl'
  /\ match response with
     | Ok analysis =>
         tbl' = [Scenario.job "pending"] ++ [analysis]
         /\ queue = [VideoAnalysis.id analysis]
         /\ VideoAnalysis.status analysis = "pending"
     | _ => tbl' = [Scenario.job "pending"] /\ queue = []
     end.
Proof.
  apply (submission_keeps_one_in_flight 1 {| analysis_type := "scene_detection" |}
           7 101 [Scenario.video1] [Scenario.job "pending"]).
  intros i j a b Hi Hj _ _ _ _.
  apply list_lookup_singleton_Some in Hi as [Hi _].
  apply list_lookup_singleton_Some in Hj as [Hj _]. lia.
Defined.

End JobsApi.

(** ** The job API and the workers acting on the same table *)

Module JobsAndWorkers.
Import Analysis Tasks ListFacts Notions JobsApi JobExecution.

(** A deleted job is not retried. When a job is deleted through the API
    while a task is still queued on it (a failed job waiting for its
    retry can be deleted), that task ends with "Analysis not found": it
    calls no analyzer, publishes nothing, writes nothing and does not
    come back. *)
Theorem deleted_job_is_not_retried
    (s : sys) (w : string) (analysis_id : Z) (n : nat)
    (current_user_id : Z) (tbl' : list VideoAnalysis.t) (msg : string)
    (o : outcome) :
  tasks s !! w = Some (queued analysis_id n) ->
  delete_analysis analysis_id current_user_id (videos s) (video_analysis s)
  = (tbl', Ok msg) ->
  let s' := step w o (with_jobs tbl' s) in
  tasks s' !! w = Some (finished "Analysis not found")
  /\ video_analysis s' = tbl'
  /\ analyzer_calls s' = analyzer_calls s
  /\ notifications s' = notifications s
  /\ (forall o', step w o' s' = s').
Proof.
  intros Hq Hdel s'.
  assert (Hnone : select_join analysis_id (with_jobs tbl' s) = None).
  { unfold delete_analysis in Hdel.
    destruct (select_analysis _ _ _ _) as [[a v] |] eqn:Hsel; [| discriminate].
    destruct (select_analysis_some _ _ _ _ _ _ Hsel) as (_ & _ & Hid & _).
    cbn [fst] in Hdel. destruct (pending_or_running _); [discriminate |].
    injection Hdel as <- _. unfold select_join, with_jobs. cbn [video_analysis].
    rewrite find_filter, (find_none_all _ (video_analysis s)); [reflexivity |].
    intros x _. rewrite Hid. apply andb_negb_l. }
  assert (Hstep : s' = set_pc w (finished "Analysis not found") (with_jobs tbl' s)).
  { subst s'. unfold step. cbn [with_jobs tasks]. by rewrite Hq, Hnone. }
  rewrite Hstep. cbn. rewrite lookup_insert_eq. repeat split.
  intros o'. unfold step. cbn. by rewrite lookup_insert_eq.
Qed.

(** The theorem for the failed job of the example whose retry is queued. *)
Lemma deleted_job_is_not_retried_witness :
  let s' := step "w1" Scenario.ok (with_jobs [] Scenario.retry_pending) in
  tasks s' !! "w1" = Some (finished "Analysis not found")
  /\ video_analysis s' = []
  /\ analyzer_calls s' = analyzer_calls Scenario.retry_pending
  /\ notifications s' = notifications Scenario.retry_pending
  /\ (forall o', step "w1" o' s' = s').
Proof.
  apply (deleted_job_is_not_retried Scenario.retry_pending "w1" 100 1 7 []
           "Analysis deleted successfully" Scenario.ok).
  - vm_compute. reflexivity.
  - reflexivity.
Defined.

(** A retry can meet a newer job. While a task is queued on a job that is
    not in flight (a failed job waiting for its retry), a new submission
    for the same video and kind is accepted; once the queued task starts,
    the old job is running and the new one pending, so two jobs of one
    (video, kind) are in flight. *)
Theorem retry_meets_new_submission
    (s : sys) (w : string) (analysis_id : Z) (n : nat)
    (a : VideoAnalysis.t) (v : Video.t) (current_user_id new_id : Z)
    (tbl' : list VideoAnalysis.t) (queue : list Z) (new : VideoAnalysis.t)
    (o1 o2 : outcome) :
  tasks s !! w = Some (queued analysis_id n) ->
  select_join analysis_id s = Some (a, v) ->
  create_analysis (VideoAnalysis.video_id a)
    {| analysis_type := VideoAnalysis.analysis_type a |}
    current_user_id new_id (videos s) (video_analysis s)
  = (tbl', queue, Ok new) ->
  new_id <> analysis_id ->
  ~ one_in_flight (video_analysis (step w o2 (step w o1 (with_jobs tbl' s)))).
Proof.
  intros Hq Hsel Hnew Hne Hinv.
  destruct (select_join_inv _ _ _ _ Hsel) as (Ha & Hv & Hid).
  assert (Htbl : tbl' = video_analysis s
                        ++ [VideoAnalysis.mk new_id (VideoAnalysis.video_id a)
                              (VideoAnalysis.analysis_type a) "pending" None None None]).
  { unfold create_analysis in Hnew.
    destruct (select_video _ _ _); [| discriminate].
    destruct (negb _); [discriminate |].
    destruct (select_existing _ _ _); [discriminate |].
    by injection Hnew as <- _ _. }
  assert (Hsel' : select_join analysis_id (with_jobs tbl' s) = Some (a, v)).
  { unfold select_join, with_jobs. cbn [video_analysis videos].
    rewrite Htbl, (find_app_some _ _ _ _ Ha), Hv. reflexivity. }
  rewrite (pickup (with_jobs tbl' s) w analysis_id n a v o1 o2 Hq Hsel') in Hinv.
  cbn [set_pc call_analyzer notify commit with_jobs video_analysis] in Hinv.
  apply find_some in Ha as [Hin _].
  apply list_elem_of_In, list_elem_of_lookup in Hin as [i Hi].
  pose proof (lookup_lt_Some _ _ _ Hi) as Hlt.
  unfold flush in Hinv.
  change (map ?f ?l) with (f <$> l) in Hinv.
  specialize (Hinv i (length (video_analysis s))).
  rewrite !list_lookup_fmap, Htbl in Hinv.
  rewrite lookup_app_l, Hi in Hinv by exact Hlt.
  rewrite lookup_app_r, Nat.sub_diag in Hinv by lia.
  cbn in Hinv. rewrite Z.eqb_refl, Hid in Hinv.
  destruct (Z.eqb_spec new_id analysis_id) as [| _]; [contradiction |].
  specialize (Hinv _ _ eq_refl eq_refl). cbn in Hinv.
  rewrite column_same in Hinv.
  specialize (Hinv eq_refl eq_refl eq_refl eq_refl). lia.
Qed.

(** The theorem for the failed job of the example whose retry is queued,
    and a second metadata job submitted meanwhile. *)
Lemma retry_meets_new_submission_witness :
  ~ one_in_flight
      (video_analysis
         (step "w1" Scenario.ok
            (step "w1" Scenario.ok
               (with_jobs
                  (video_analysis Scenario.retry_pending
                   ++ [VideoAnalysis.mk 101 1 "metadata_extraction" "pending"
                         None None None])
                  Scenario.retry_pending)))).
Proof.
  apply (retry_meets_new_submission Scenario.retry_pending "w1" 100 1
           (VideoAnalysis.mk 100 1 "metadata_extraction" "failed" None
              (Some "boom") (Some "w1"))
           Scenario.video1 7 101 _ [101%Z]
           (VideoAnalysis.mk 101 1 "metadata_extraction" "pending" None None None)
           Scenario.ok Scenario.ok).
  - vm_compute. reflexivity.
  - vm_compute. reflexivity.
  - reflexivity.
  - lia.
Defined.

End JobsAndWorkers.

(** ** What a connection of the upload channel can leave behind *)

Module ChannelOutcome.
Import Websocket WebsocketFacts Notions ListFacts.

Lemma patch_none (r : UploadSession.t) : patch None None r = r.
Proof. by destruct r. Qed.

Lemma update_session_patch_none sid tbl :
  update_session sid (patch None None) tbl = tbl.
Proof.
  unfold update_session. induction tbl as [| r tbl IH]; [reflexivity |].
  cbn [map]. rewrite IH. destruct (UploadSession.id r =? sid)%Z; [| reflexivity].
  by rewrite patch_none.
Qed.

Lemma update_session_twice sid f n st tbl :
  update_session sid f (update_session sid (patch n st) tbl)
  = update_session sid (fun r => f (patch n st r)) tbl.
Proof.
  unfold update_session. rewrite map_map. apply map_ext. intros r.
  destruct (Z.eqb_spec (UploadSession.id r) sid) as [Hr |]; cbn.
  - by rewrite Hr, Z.eqb_refl.
  - by destruct (Z.eqb_spec (UploadSession.id r) sid).
Qed.

Lemma counted_add i b c :
  counted (store_chunk i b c) = Some (len ({[i]} ∪ received_chunks c)).
Proof.
  unfold counted. cbn. destruct (decide _) as [He |]; [| reflexivity].
  exfalso. set_solver.
Qed.

(** A commit through the handler's copy, on a tracked connection. *)
Lemma commit_tracked s tbl st st' c c' f n' :
  tracked s tbl st c ->
  upload_sessions c' = update_session (UploadSession.id (upload_session c)) f
                         (upload_sessions c) ->
  upload_session c' = f (upload_session c) ->
  counted c' = n' ->
  (forall r, f (patch (counted c) st r) = patch n' st' r) ->
  tracked s tbl st' c'.
Proof.
  intros [Htbl Hs] Htbl' Hs' Hn Hf. unfold tracked.
  rewrite Htbl', Hs', Htbl, Hs, Hn. cbn [patch UploadSession.id].
  rewrite update_session_twice. split; [| apply Hf].
  unfold update_session. apply map_ext. intros r. by rewrite Hf.
Qed.

Section Connection.
Context (e : env) (tbl : list UploadSession.t) (vids : list Video.t)
        (s : UploadSession.t).

Lemma handle_outcome c ev :
  connection_outcome e tbl vids s (c, Continue) ->
  connection_outcome e tbl vids s (handle_message e c ev).
Proof.
  intros (Hdom & (Hf & Hv & Hp) & Htr). cbn [fst snd] in *.
  pose proof Htr as [_ Hs].
  destruct ev as [i b | | | | x]; cbn [handle_message].
  - assert (Htr1 : forall c', 
               upload_sessions c'
               = update_session (UploadSession.id (upload_session c))
                   (UploadSession.set_uploaded_chunks (len ({[i]} ∪ received_chunks c)))
                   (upload_sessions c) ->
               upload_session c'
               = UploadSession.set_uploaded_chunks (len ({[i]} ∪ received_chunks c))
                   (upload_session c) ->
               received_chunks c' = {[i]} ∪ received_chunks c ->
               tracked s tbl None c').
    { intros c' H1 H2 H3.
      apply (commit_tracked s tbl None None c c' _
               (Some (len ({[i]} ∪ received_chunks c))) Htr H1 H2); [| reflexivity].
      unfold counted. rewrite H3. destruct (decide _) as [He |]; [| reflexivity].
      exfalso. set_solver. }
    assert (Hdom1 : {[i]} ∪ received_chunks c = dom (<[i := b]> (chunk_data c)))
      by (rewrite dom_insert_L, Hdom; reflexivity).
    assert (Htot : UploadSession.total_chunks (upload_session c)
                   = UploadSession.total_chunks s) by (by rewrite Hs).
    cbn. rewrite Htot.
    destruct (Z.eqb_spec (UploadSession.total_chunks s) 0) as [H0 | H0].
    + split; [exact Hdom1 |]. cbn. right. right. split; [done |].
      by apply Htr1.
    + destruct (Z.eqb_spec (len ({[i]} ∪ received_chunks c))
                  (UploadSession.total_chunks s)) as [Hfull | Hpart].
      * split; [exact Hdom1 |]. cbn [snd fst]. left. split.
        -- unfold completed_upload, complete_upload. cbn. rewrite Hf, Hv, Hp, Htot, Hs.
           cbn. repeat split; try assumption.
           rewrite <- Hfull. unfold len.
           assert (size ({[i]} ∪ received_chunks c) <> 0%nat); [| lia].
           intros Hz. apply size_empty_inv in Hz. set_solver.
        -- apply (commit_tracked s tbl None (Some "completed")
                    (after_chunk c i b) _ (UploadSession.set_status "completed")
                    (Some (len ({[i]} ∪ received_chunks c)))).
           ++ by apply Htr1.
           ++ reflexivity.
           ++ reflexivity.
           ++ unfold counted. cbn. destruct (decide _) as [He |]; [| reflexivity].
              exfalso. set_solver.
           ++ intros r. unfold counted. cbn.
              destruct (decide _) as [He |]; [exfalso; set_solver | reflexivity].
      * split; [exact Hdom1 |]. cbn [snd fst]. split; [done |]. by apply Htr1.
  - split; [exact Hdom |]. cbn [snd fst]. right. left. split; [done |].
    apply (commit_tracked s tbl None (Some "cancelled") c _
             (UploadSession.set_status "cancelled") (counted c) Htr);
      reflexivity.
  - split; [exact Hdom |]. cbn [snd fst]. by split.
  - split; [exact Hdom |]. cbn [snd fst]. right. right. by split.
  - split; [exact Hdom |]. cbn [snd fst]. right. right. by split.
Qed.

Lemma receive_outcome evs :
  forall c, connection_outcome e tbl vids s (c, Continue) ->
            connection_outcome e tbl vids s (receive_loop e c evs).
Proof.
  induction evs as [| ev evs IH]; intros c Hc; cbn [receive_loop]; [exact Hc |].
  pose proof (handle_outcome c ev Hc) as Hh.
  destruct (handle_message e c ev) as [c' [|]]; [by apply IH | exact Hh].
Qed.

Lemma open_conn_outcome :
  connection_outcome e tbl vids s (open_conn tbl vids s, Continue).
Proof.
  split; [cbn; by rewrite dom_empty_L |]. cbn [snd fst]. split; [done |].
  unfold tracked, counted. cbn. by rewrite update_session_patch_none, patch_none.
Qed.

Lemma reject_outcome m :
  connection_outcome e tbl vids s (reject tbl vids s m, Break).
Proof.
  split; [cbn; by rewrite dom_empty_L |]. cbn [snd fst]. right. right.
  split; [done |].
  unfold tracked, counted. cbn. by rewrite update_session_patch_none, patch_none.
Qed.

Lemma aborted_outcome :
  connection_outcome e tbl vids s (aborted tbl vids s, Break).
Proof.
  split; [cbn; by rewrite dom_empty_L |]. cbn [snd fst]. right. right.
  split; [done |].
  unfold tracked, counted. cbn. by rewrite update_session_patch_none, patch_none.
Qed.

Lemma serve_outcome evs :
  connection_outcome e tbl vids s (serve e tbl vids s evs).
Proof.
  unfold serve. destruct (negb _); [apply reject_outcome |].
  apply receive_outcome, open_conn_outcome.
Qed.

(** Every state the endpoint returns on a known token, and every state
    lines 73-200 reach on the session, stands in one of the ways above. *)
Lemma endpoint_outcome session_token now evs r :
  select_token session_token tbl = Some s ->
  websocket_upload_endpoint e session_token now tbl vids evs = Some r
  \/ serve e tbl vids s evs = r ->
  connection_outcome e tbl vids s r.
Proof.
  intros Hsel [Hrun | <-]; [| apply serve_outcome].
  unfold websocket_upload_endpoint in Hrun. rewrite Hsel in Hrun.
  destruct (datetime_lt _ _) as [[|] |]; injection Hrun as <-.
  - apply reject_outcome.
  - apply serve_outcome.
  - apply aborted_outcome.
Qed.

End Connection.

Lemma tracked_rows s tbl st c :
  tracked s tbl st c ->
  forall i : nat, upload_sessions c !! i = stored_row s (counted c) st <$> tbl !! i.
Proof.
  intros [Htbl _] i. rewrite Htbl. unfold update_session.
  change (map ?f ?l) with (f <$> l). by rewrite list_lookup_fmap.
Qed.

(** The received set is the buffer's key set. In the state the endpoint
    returns, and at every point lines 73-200 reach on the session for any
    frames of the client, the indices counted as received are exactly the
    indices that have bytes in the buffer. *)
Theorem received_is_buffered
    (e : env) (session_token : string) (now : Z)
    (tbl : list UploadSession.t) (vids : list Video.t) (s : UploadSession.t)
    (evs : list client_event) (c : conn) (k : ctl) :
  select_token session_token tbl = Some s ->
  websocket_upload_endpoint e session_token now tbl vids evs = Some (c, k)
  \/ serve e tbl vids s evs = (c, k) ->
  received_chunks c = dom (chunk_data c).
Proof.
  intros Hsel Hrun.
  by destruct (endpoint_outcome e tbl vids s _ _ _ _ Hsel Hrun) as [Hdom _].
Qed.

(** The theorem after one chunk, sent twice, on a session of three. *)
Lemma received_is_buffered_witness :
  let s := Scenario.session 3 "active" 1000 in
  let c := after_chunk (after_chunk (open_conn [s] [] s) 1 (Scenario.letter 1))
             1 (Scenario.letter 0) in
  received_chunks c = dom (chunk_data c).
Proof.
  intros s c.
  apply (received_is_buffered Scenario.env0 "tok" 10 [s] [] s
           [chunk 1 (Scenario.letter 1); chunk 1 (Scenario.letter 0)] c Continue).
  - reflexivity.
  - right. vm_compute. reflexivity.
Defined.

(** A connection changes only its own session. In the stored sessions
    as the endpoint leaves them, and as lines 73-200 leave them for any
    frames of the client, every row of another session is as it was, and
    the rows of the served session differ at most in the progress counter
    and the status. Once a chunk was received, the counter is the number
    of distinct indices received on this connection, whatever was stored
    before, so a reconnecting client starts again from one. *)
Theorem connection_changes_only_its_session
    (e : env) (session_token : string) (now : Z)
    (tbl : list UploadSession.t) (vids : list Video.t) (s : UploadSession.t)
    (evs : list client_event) (c : conn) (k : ctl) :
  select_token session_token tbl = Some s ->
  websocket_upload_endpoint e session_token now tbl vids evs = Some (c, k)
  \/ serve e tbl vids s evs = (c, k) ->
  exists st,
    (forall i : nat,
        upload_sessions c !! i = stored_row s (counted c) st <$> tbl !! i)
    /\ upload_session c = patch (counted c) st s
    /\ (received_chunks c <> ∅ ->
        UploadSession.uploaded_chunks (upload_session c) = len (received_chunks c)).
Proof.
  intros Hsel Hrun.
  destruct (endpoint_outcome e tbl vids s _ _ _ _ Hsel Hrun) as [_ Hout].
  cbn [fst snd] in Hout.
  assert (Htr : exists st, tracked s tbl st c).
  { destruct k; [destruct Hout as [_ H]; eauto |].
    destruct Hout as [[_ H] | [[_ H] | [_ H]]]; eauto. }
  destruct Htr as [st Htr]. exists st.
  split; [by apply tracked_rows |]. destruct Htr as [_ Hs]. split; [exact Hs |].
  intros Hne. rewrite Hs. unfold counted. cbn.
  by destruct (decide _).
Qed.

(** The theorem for a reconnection to a session whose stored counter says
    two: after one chunk the counter is one. *)
Lemma connection_changes_only_its_session_witness :
  let s := UploadSession.mk 1 7 "clip.mp4" 3 1 3 2 "active" "tok" 1000 in
  let other := UploadSession.mk 2 8 "other.mp4" 3 1 3 1 "active" "kot" 1000 in
  let c := after_chunk (open_conn [other; s] [] s) 0 (Scenario.letter 0) in
  exists st,
    (forall i : nat,
        upload_sessions c !! i = stored_row s (counted c) st <$> [other; s] !! i)
    /\ upload_session c = patch (counted c) st s
    /\ (received_chunks c <> ∅ ->
        UploadSession.uploaded_chunks (upload_session c) = len (received_chunks c)).
Proof.
  intros s other c.
  apply (connection_changes_only_its_session Scenario.env0 "tok" 10 [other; s] [] s
           [chunk 0 (Scenario.letter 0)] c Continue).
  - reflexivity.
  - right. vm_compute. reflexivity.
Defined.

End ChannelOutcome.

(** ** Progress frames, cancelling, and sessions without chunks *)

Module ChannelFrames.
Import Websocket WebsocketFacts Notions ListFacts ChannelOutcome.

Lemma len_add_bounds (i : Z) (rc : gset Z) :
  (0 < len ({[i]} ∪ rc) <= len rc + 1)%Z.
Proof.
  destruct (decide (i ∈ rc)) as [Hi | Hi].
  - rewrite (len_add_known i rc Hi). unfold len.
    assert (size rc <> 0%nat); [| lia].
    intros Hz. apply size_empty_inv in Hz. set_solver.
  - rewrite (len_add_fresh i rc Hi). unfold len. lia.
Qed.

Lemma after_chunk_sent c i b :
  exists q,
    sent (after_chunk c i b)
    = sent c ++ [progress i (len ({[i]} ∪ received_chunks c))
                   (UploadSession.total_chunks (upload_session c)) q].
Proof. eexists. reflexivity. Qed.

Lemma complete_upload_sent e c :
  sent (complete_upload e c)
  = sent c ++ [upload_complete (new_video_id e) (unique_filename e)
                 "Upload completed successfully"].
Proof. reflexivity. Qed.

Lemma receive_loop_app e pre evs :
  forall c c0,
    receive_loop e c pre = (c0, Continue) ->
    receive_loop e c (pre ++ evs) = receive_loop e c0 evs.
Proof.
  induction pre as [| ev pre IH]; intros c c0; cbn [receive_loop app].
  - by intros [= <-].
  - destruct (handle_message e c ev) as [c1 [|]]; [apply IH | discriminate].
Qed.

Section Frames.
Context (e : env) (total : Z) (Hpos : (0 < total)%Z).

Lemma handle_frames c ev :
  frames_inv total c ->
  Forall (progress_within total) (sent (handle_message e c ev).1)
  /\ ((handle_message e c ev).2 = Continue ->
      frames_inv total (handle_message e c ev).1).
Proof.
  intros (Hsent & Hlen & Htot).
  destruct ev as [i b | | | | x].
  - rewrite handle_chunk by lia. rewrite Htot.
    pose proof (len_add_bounds i (received_chunks c)) as Hb.
    assert (Hnew : Forall (progress_within total) (sent (after_chunk c i b))).
    { destruct (after_chunk_sent c i b) as [q ->]. rewrite Htot.
      apply Forall_app. split; [exact Hsent |].
      apply Forall_singleton. split; [lia | reflexivity]. }
    destruct (Z.eqb_spec (len ({[i]} ∪ received_chunks c)) total) as [Hfull | Hpart].
    + cbn [fst snd]. split; [| discriminate].
      rewrite complete_upload_sent. apply Forall_app. split; [exact Hnew |].
      by repeat constructor.
    + cbn [fst snd]. split; [exact Hnew |]. intros _.
      split; [exact Hnew |]. split; [cbn; lia | exact Htot].
  - cbn [fst snd]. split; [| discriminate].
    cbn. apply Forall_app. split; [exact Hsent | by repeat constructor].
  - cbn [fst snd]. by repeat split.
  - cbn [fst snd]. split; [exact Hsent | discriminate].
  - cbn [fst snd]. split; [| discriminate].
    cbn. apply Forall_app. split; [exact Hsent | by repeat constructor].
Qed.

Lemma receive_frames evs :
  forall c, frames_inv total c ->
            Forall (progress_within total) (sent (receive_loop e c evs).1).
Proof.
  induction evs as [| ev evs IH]; intros c Hc; cbn [receive_loop]; [apply Hc |].
  destruct (handle_frames c ev Hc) as [Hs Hk].
  destruct (handle_message e c ev) as [c' [|]]; cbn [fst snd] in *; [| exact Hs].
  by apply IH, Hk.
Qed.

End Frames.

(** Progress never overshoots. On a session with a positive number of
    chunks, every progress frame sent, in what the endpoint returns and in
    what lines 73-200 send for any frames of the client, reports the
    session's total and a count between one and that total, whatever
    indices the client sends and however often. *)
Theorem progress_stays_within_total
    (e : env) (session_token : string) (now : Z)
    (tbl : list UploadSession.t) (vids : list Video.t) (s : UploadSession.t)
    (evs : list client_event) (c : conn) (k : ctl) :
  select_token session_token tbl = Some s ->
  (0 < UploadSession.total_chunks s)%Z ->
  websocket_upload_endpoint e session_token now tbl vids evs = Some (c, k)
  \/ serve e tbl vids s evs = (c, k) ->
  Forall (progress_within (UploadSession.total_chunks s)) (sent c).
Proof.
  intros Hsel Hpos Hrun.
  assert (Hserve : forall c' k', serve e tbl vids s evs = (c', k') ->
             Forall (progress_within (UploadSession.total_chunks s)) (sent c')).
  { intros c' k'. unfold serve.
    destruct (negb _); [intros [= <- _]; by repeat constructor |].
    intros Hloop.
    pose proof (receive_frames e (UploadSession.total_chunks s) Hpos evs
                  (open_conn tbl vids s)) as H.
    rewrite Hloop in H. apply H.
    split; [by repeat constructor |]. split; [| reflexivity].
    cbn. unfold len. rewrite size_empty. lia. }
  destruct Hrun as [Hrun | Hrun]; [| by apply (Hserve c k)].
  unfold websocket_upload_endpoint in Hrun. rewrite Hsel in Hrun.
  destruct (datetime_lt _ _) as [[|] |]; injection Hrun as Hrun.
  - inversion Hrun; subst. by repeat constructor.
  - by apply (Hserve c k).
  - inversion Hrun; subst. constructor.
Qed.

(** The theorem for a session of two chunks and a client that sends an
    index out of range and one chunk twice. *)
Lemma progress_stays_within_total_witness :
  let s := Scenario.session 2 "active" 1000 in
  let c := (receive_loop Scenario.env0 (open_conn [s] [] s)
              [chunk 5 (Scenario.letter 5); chunk 5 (Scenario.letter 0);
               chunk 0 (Scenario.letter 0)]).1 in
  Forall (progress_within (UploadSession.total_chunks s)) (sent c).
Proof.
  intros s c.
  apply (progress_stays_within_total Scenario.env0 "tok" 10 [s] [] s
           [chunk 5 (Scenario.letter 5); chunk 5 (Scenario.letter 0);
            chunk 0 (Scenario.letter 0)] c Break).
  - reflexivity.
  - cbn. lia.
  - right. vm_compute. reflexivity.
Defined.

End ChannelFrames.

(** ** Sessions from opening to their end, and the one-shot upload *)

Module SessionsMore.
Import Websocket WebsocketFacts Notions ListFacts ChannelOutcome ChannelFrames.

Lemma select_token_fresh token tbl s :
  (forall r, r ∈ tbl -> UploadSession.session_token r <> token) ->
  UploadSession.session_token s = token ->
  select_token token (tbl ++ [s]) = Some s.
Proof.
  intros Hfresh Hs. unfold select_token. rewrite find_app_none.
  - cbn. by rewrite Hs, String.eqb_refl.
  - apply find_none_all. intros r Hr. apply String.eqb_neq. by apply Hfresh.
Qed.

(** Cancelling over the channel. A cancel message on a running connection
    ends it: the session's rows are stored as cancelled with the counter
    the connection had committed, the reply is upload_cancelled, nothing
    was written, stored or queued, and whatever the client sends after
    the cancel is not read. *)
Theorem cancel_ends_the_connection
    (e : env) (tbl : list UploadSession.t) (vids : list Video.t)
    (s : UploadSession.t) (pre rest : list client_event) (c0 : conn) :
  receive_loop e (open_conn tbl vids s) pre = (c0, Continue) ->
  exists c,
    receive_loop e (open_conn tbl vids s) (pre ++ cancel :: rest) = (c, Break)
    /\ UploadSession.status (upload_session c) = "cancelled"
    /\ untouched vids c
    /\ sent c = sent c0 ++ [upload_cancelled "Upload cancelled"]
    /\ (forall i : nat,
          upload_sessions c !! i
          = stored_row s (counted c0) (Some "cancelled") <$> tbl !! i).
Proof.
  intros Hpre.
  pose proof (receive_outcome e tbl vids s pre _ (open_conn_outcome e tbl vids s)) as Hout.
  rewrite Hpre in Hout. destruct Hout as [_ [(Hf & Hv & Hp) Htr]]. cbn [fst snd] in *.
  eexists. split; [rewrite (receive_loop_app e pre _ _ _ Hpre); reflexivity |].
  split; [reflexivity |]. split; [done |]. split; [reflexivity |].
  apply (tracked_rows s tbl (Some "cancelled")
           (send (upload_cancelled "Upload cancelled")
              (commit_session (UploadSession.set_status "cancelled") c0))).
  apply (commit_tracked s tbl None (Some "cancelled") c0 _
           (UploadSession.set_status "cancelled") (counted c0) Htr); reflexivity.
Qed.

(** The theorem for a session of three chunks cancelled after one chunk. *)
Lemma cancel_ends_the_connection_witness :
  let s := Scenario.session 3 "active" 1000 in
  let c0 := after_chunk (open_conn [s] [] s) 0 (Scenario.letter 0) in
  exists c,
    receive_loop Scenario.env0 (open_conn [s] [] s)
      ([chunk 0 (Scenario.letter 0)] ++ cancel :: [chunk 1 (Scenario.letter 1)])
    = (c, Break)
    /\ UploadSession.status (upload_session c) = "cancelled"
    /\ untouched [] c
    /\ sent c = sent c0 ++ [upload_cancelled "Upload cancelled"]
    /\ (forall i : nat,
          upload_sessions c !! i
          = stored_row s (counted c0) (Some "cancelled") <$> [s] !! i).
Proof.
  intros s c0.
  apply (cancel_ends_the_connection Scenario.env0 [s] [] s
           [chunk 0 (Scenario.letter 0)] [chunk 1 (Scenario.letter 1)] c0).
  vm_compute. reflexivity.
Defined.

(** A session for an empty file cannot be completed. Opening a session
    with a non-positive size and a positive chunk size is accepted and
    gives a session without chunks; no connection on it, neither as the
    endpoint ends it nor as lines 73-200 run on it, whatever the client
    sends, ever writes a file, stores a video, queues an analysis or
    marks the session completed. *)
Theorem empty_file_session_never_completes
    (session_data : Upload.UploadSessionCreate)
    (current_user_id new_id : Z) (token : string) (created : Z)
    (tbl : list UploadSession.t) :
  (Upload.file_size session_data <= 0)%Z ->
  (0 < Upload.chunk_size session_data)%Z ->
  (forall r, r ∈ tbl -> UploadSession.session_token r <> token) ->
  exists s,
    Upload.create_upload_session session_data current_user_id new_id token created tbl
    = (tbl ++ [s], Ok s)
    /\ (UploadSession.total_chunks s <= 0)%Z
    /\ forall e now vids evs c k,
         websocket_upload_endpoint e token now (tbl ++ [s]) vids evs = Some (c, k)
         \/ serve e (tbl ++ [s]) vids s evs = (c, k) ->
         untouched vids c
         /\ UploadSession.status (upload_session c) <> "completed".
Proof.
  intros Hfs Hcs Hfresh. unfold Upload.create_upload_session.
  destruct (Z.eqb_spec (Upload.chunk_size session_data) 0) as [| _]; [lia |].
  eexists. split; [reflexivity |].
  assert (Htot : ((Upload.file_size session_data + Upload.chunk_size session_data - 1)
                    / Upload.chunk_size session_data <= 0)%Z).
  { apply Z.lt_succ_r. apply Z.div_lt_upper_bound; lia. }
  split; [exact Htot |].
  intros e now vids evs c k Hrun.
  match type of Hrun with
  | _ \/ serve _ _ _ ?s0 _ = _ => set (s := s0) in *
  end.
  assert (Hsel : select_token token (tbl ++ [s]) = Some s)
    by (by apply select_token_fresh).
  destruct (endpoint_outcome e _ vids s _ _ _ _ Hsel Hrun) as [_ Hout].
  cbn [fst snd] in Hout.
  assert (H : (untouched vids c /\ tracked s (tbl ++ [s]) (Some "cancelled") c)
              \/ (untouched vids c /\ tracked s (tbl ++ [s]) None c)).
  { destruct k; [by right |].
    destruct Hout as [[(_ & _ & _ & _ & Hpos) _] | [H | H]]; [| by left | by right].
    subst s. cbn in Hpos. lia. }
  destruct H as [[Hun [_ Hs]] | [Hun [_ Hs]]]; (split; [exact Hun |]);
    rewrite Hs; subst s; cbn; discriminate.
Qed.

(** The theorem for a declared size of zero. *)
Lemma empty_file_session_witness :
  exists s,
    Upload.create_upload_session
      {| Upload.filename := "clip.mp4"; Upload.file_size := 0;
         Upload.chunk_size := 1048576 |} 7 1 "tok" 0 []
    = ([] ++ [s], Ok s)
    /\ (UploadSession.total_chunks s <= 0)%Z
    /\ forall e now vids evs c k,
         websocket_upload_endpoint e "tok" now ([] ++ [s]) vids evs = Some (c, k)
         \/ serve e ([] ++ [s]) vids s evs = (c, k) ->
         untouched vids c
         /\ UploadSession.status (upload_session c) <> "completed".
Proof.
  apply (empty_file_session_never_completes
           {| Upload.filename := "clip.mp4"; Upload.file_size := 0;
              Upload.chunk_size := 1048576 |} 7 1 "tok" 0 []).
  - cbn. lia.
  - cbn. lia.
  - intros r Hr. by apply elem_of_nil in Hr.
Defined.

Lemma select_owned_update token u sid f tbl :
  (forall r, UploadSession.session_token (f r) = UploadSession.session_token r
             /\ UploadSession.user_id (f r) = UploadSession.user_id r) ->
  Upload.select_owned token u (update_session sid f tbl)
  = option_map (fun r => if Z.eqb (UploadSession.id r) sid then f r else r)
      (Upload.select_owned token u tbl).
Proof.
  intros Hf. unfold Upload.select_owned, update_session. apply find_map_same.
  intros r. destruct (UploadSession.id r =? sid)%Z; [| reflexivity].
  destruct (Hf r) as [-> ->]. reflexivity.
Qed.

(** Cancelling over HTTP. Cancelling a session of the caller stores the
    status cancelled in the rows with that session's id and changes
    nothing else: the table keeps its length, every other session is as
    it was; cancelling again gives the same answer and the same table. *)
Theorem cancel_is_local_and_repeatable
    (session_token : string) (current_user_id : Z)
    (tbl : list UploadSession.t) (s : UploadSession.t) :
  Upload.select_owned session_token current_user_id tbl = Some s ->
  exists tbl',
    Upload.cancel_upload_session session_token current_user_id tbl
    = (tbl', Ok "Upload session cancelled")
    /\ Upload.cancel_upload_session session_token current_user_id tbl'
       = (tbl', Ok "Upload session cancelled")
    /\ (forall i : nat,
          tbl' !! i = stored_row s None (Some "cancelled") <$> tbl !! i).
Proof.
  intros Hsel.
  set (f := UploadSession.set_status "cancelled").
  assert (Hf : forall r, UploadSession.session_token (f r) = UploadSession.session_token r
                         /\ UploadSession.user_id (f r) = UploadSession.user_id r)
    by (by intros r).
  assert (Hsel' : Upload.select_owned session_token current_user_id
                    (update_session (UploadSession.id s) f tbl) = Some (f s)).
  { rewrite (select_owned_update _ _ _ f tbl Hf), Hsel. cbn. by rewrite Z.eqb_refl. }
  exists (update_session (UploadSession.id s) f tbl).
  split; [unfold Upload.cancel_upload_session; by rewrite Hsel |].
  split.
  - unfold Upload.cancel_upload_session. rewrite Hsel'. f_equal.
    change (UploadSession.id (f s)) with (UploadSession.id s).
    unfold update_session. rewrite map_map. apply map_ext. intros r.
    destruct (Z.eqb_spec (UploadSession.id r) (UploadSession.id s)) as [Hr |]; cbn.
    + by rewrite Hr, Z.eqb_refl.
    + by destruct (Z.eqb_spec (UploadSession.id r) (UploadSession.id s)).
  - intros i. unfold update_session. change (map ?g ?l) with (g <$> l).
    rewrite list_lookup_fmap. by destruct (tbl !! i).
Qed.

(** The theorem for a session of user 7 stored beside one of user 8. *)
Lemma cancel_is_local_and_repeatable_witness :
  let s := Scenario.session 2 "active" 1000 in
  let other := UploadSession.mk 2 8 "other.mp4" 3 1 3 1 "active" "kot" 1000 in
  exists tbl',
    Upload.cancel_upload_session "tok" 7 [other; s]
    = (tbl', Ok "Upload session cancelled")
    /\ Upload.cancel_upload_session "tok" 7 tbl'
       = (tbl', Ok "Upload session cancelled")
    /\ (forall i : nat,
          tbl' !! i = stored_row s None (Some "cancelled") <$> [other; s] !! i).
Proof.
  intros s other.
  apply (cancel_is_local_and_repeatable "tok" 7 [other; s] s).
  reflexivity.
Defined.

(** A one-shot upload can be analysed at once. After [simple_upload]
    accepted a file under a fresh video id, a submission by the same user
    for that video, of any kind with no job of it in flight, is accepted
    and gives a pending job. *)
Theorem simple_upload_then_analysis
    (file : Upload.UploadFile.t) (current_user_id : Z)
    (unique_filename file_path : string) (new_id : Z)
    (vids vids' : list Video.t) (fs fs' : list (string * bytes))
    (answer : string * Z * string)
    (analysis_data : Analysis.VideoAnalysisCreate) (job_id : Z)
    (tbl : list VideoAnalysis.t) :
  Upload.simple_upload file current_user_id unique_filename file_path new_id vids fs
  = (vids', fs', Ok answer) ->
  (forall v, v ∈ vids -> Video.id v <> new_id) ->
  Analysis.select_existing new_id (Analysis.analysis_type analysis_data) tbl = None ->
  let analysis :=
    VideoAnalysis.mk job_id new_id (Analysis.analysis_type analysis_data)
      "pending" None None None in
  Analysis.create_analysis new_id analysis_data current_user_id job_id vids' tbl
  = (tbl ++ [analysis], [job_id], Ok analysis).
Proof.
  intros Hup Hfresh Hnone analysis. unfold Upload.simple_upload in Hup.
  destruct (Upload.UploadFile.content_type file) as [ct |]; [| discriminate].
  destruct (negb _); [discriminate |].
  destruct (Upload.UploadFile.filename file) as [orig |]; [| discriminate].
  injection Hup as <- _ _.
  unfold Analysis.create_analysis, Analysis.select_video.
  rewrite find_app_none.
  - cbn. rewrite !Z.eqb_refl. cbn. by rewrite Hnone.
  - apply find_none_all. intros v Hv. apply andb_false_iff. left.
    apply Z.eqb_neq. by apply Hfresh.
Qed.

(** The theorem for a first video of two bytes and its metadata job. *)
Lemma simple_upload_then_analysis_witness :
  let analysis :=
    VideoAnalysis.mk 100 1 "metadata_extraction" "pending" None None None in
  Analysis.create_analysis 1 {| Analysis.analysis_type := "metadata_extraction" |}
    7 100
    [Video.mk 1 7 "Zm9vYmFy.mp4" "clip.mp4" "/app/storage/7/Zm9vYmFy.mp4" 2
       "video/mp4" "completed"] []
  = ([] ++ [analysis], [100%Z], Ok analysis).
Proof.
  apply (simple_upload_then_analysis
           (Upload.UploadFile.mk (Some "clip.mp4") (Some "video/mp4")
              [Byte.x61; Byte.x62])
           7 "Zm9vYmFy.mp4" "/app/storage/7/Zm9vYmFy.mp4" 1 []
           [Video.mk 1 7 "Zm9vYmFy.mp4" "clip.mp4" "/app/storage/7/Zm9vYmFy.mp4" 2
              "video/mp4" "completed"]
           [] [("/app/storage/7/Zm9vYmFy.mp4", [Byte.x61; Byte.x62])]
           ("File uploaded successfully", 1%Z, "Zm9vYmFy.mp4")
           {| Analysis.analysis_type := "metadata_extraction" |} 100 []).
  - reflexivity.
  - intros v Hv. by apply elem_of_nil in Hv.
  - reflexivity.
Defined.

End SessionsMore.

(** ** The registry of live connections *)

Module Registry.
Import ConnectionManager ListFacts.

Lemma dict_get_set_same k v d : dict_get k (dict_set k v d) = Some v.
Proof.
  unfold dict_get. induction d as [| [k' v'] d IH]; cbn.
  - by rewrite String.eqb_refl.
  - destruct (String.eqb_spec k' k) as [-> | Hne]; cbn.
    + by rewrite String.eqb_refl.
    + destruct (String.eqb_spec k' k); [contradiction | exact IH].
Qed.

Lemma dict_get_set_other k k' v d :
  k' <> k -> dict_get k' (dict_set k v d) = dict_get k' d.
Proof.
  intros Hne. unfold dict_get. induction d as [| [k0 v0] d IH]; cbn.
  - by destruct (String.eqb_spec k k'); [congruence |].
  - destruct (String.eqb_spec k0 k) as [-> | Hk]; cbn.
    + by destruct (String.eqb_spec k k'); [congruence |].
    + destruct (String.eqb_spec k0 k'); [reflexivity | exact IH].
Qed.

Lemma dict_get_del k k' d :
  dict_get k' (dict_del k d) = if String.eqb k' k then None else dict_get k' d.
Proof.
  unfold dict_get, dict_del. rewrite find_filter.
  destruct (String.eqb_spec k' k) as [-> | Hne].
  - rewrite (find_none_all _ d); [reflexivity |].
    intros kv _. apply andb_negb_l.
  - f_equal. apply find_ext_all. intros [k0 v0]. cbn.
    destruct (String.eqb_spec k0 k') as [-> | ]; [| apply andb_false_r].
    by destruct (String.eqb_spec k' k).
Qed.

Lemma dict_set_twice k v1 v2 d : dict_set k v2 (dict_set k v1 d) = dict_set k v2 d.
Proof.
  induction d as [| [k' v'] d IH]; cbn.
  - by rewrite String.eqb_refl.
  - destruct (String.eqb_spec k' k) as [-> | Hne]; cbn.
    + by rewrite String.eqb_refl.
    + destruct (String.eqb_spec k' k); [contradiction |]. by rewrite IH.
Qed.

(** Registering and finding. After [connect] the client id leads to the
    new socket, after [disconnect] to none, and in both cases every other
    client id leads where it led before. *)
Theorem registry_lookup
    (websocket : Z) (client_id other : string) (m : t) :
  dict_get client_id (active_connections (connect websocket client_id m))
  = Some websocket
  /\ dict_get client_id (active_connections (disconnect client_id m)) = None
  /\ (other <> client_id ->
      dict_get other (active_connections (connect websocket client_id m))
      = dict_get other (active_connections m)
      /\ dict_get other (active_connections (disconnect client_id m))
         = dict_get other (active_connections m)).
Proof.
  split; [apply dict_get_set_same |]. split.
  - unfold disconnect. destruct (dict_get client_id (active_connections m)) eqn:Hg.
    + cbn [active_connections]. by rewrite dict_get_del, String.eqb_refl.
    + exact Hg.
  - intros Hne. split; [by apply dict_get_set_other |].
    unfold disconnect. destruct (dict_get client_id (active_connections m)); [| reflexivity].
    cbn [active_connections]. rewrite dict_get_del.
    by destruct (String.eqb_spec other client_id).
Qed.

(** A second connection under one client id. When a client id connects
    again while registered, the new socket takes the place of the old
    one: a personal message goes to the new socket only. When the
    handler of the first connection then cleans up with [disconnect], the
    id is no longer registered at all, and a personal message to it is
    sent to nobody although the second connection is still open. *)
Theorem reconnection_replaces_then_is_dropped
    (first second : Z) (client_id message : string) (m : t) :
  let twice := connect second client_id (connect first client_id m) in
  active_connections twice = active_connections (connect second client_id m)
  /\ sent_text (send_personal_message message client_id twice)
     = sent_text m ++ [(second, message)]
  /\ dict_get client_id (active_connections (disconnect client_id twice)) = None
  /\ sent_text (send_personal_message message client_id (disconnect client_id twice))
     = sent_text m.
Proof.
  intros twice.
  assert (Hget : dict_get client_id (active_connections twice) = Some second)
    by apply dict_get_set_same.
  assert (Hgone : dict_get client_id (active_connections (disconnect client_id twice))
                  = None).
  { unfold disconnect. rewrite Hget. cbn [active_connections].
    by rewrite dict_get_del, String.eqb_refl. }
  split; [apply dict_set_twice |]. split; [| split; [exact Hgone |]].
  - unfold send_personal_message. by rewrite Hget.
  - unfold send_personal_message. rewrite Hgone. unfold disconnect. by rewrite Hget.
Qed.

(** A broadcast reaches every registered client once. In a registry
    without doubled client ids, [broadcast] appends as many frames as
    there are registered ids, all carrying the message, and a socket is
    sent the message exactly if some client id is registered with it. *)
Theorem broadcast_reaches_every_client (message : string) (m : t) :
  NoDup (map fst (active_connections m)) ->
  exists added,
    sent_text (broadcast message m) = sent_text m ++ added
    /\ length added = length (active_connections m)
    /\ (forall websocket text,
          (websocket, text) ∈ added <->
          text = message
          /\ exists client_id,
               dict_get client_id (active_connections m) = Some websocket).
Proof.
  intros Hnd. eexists. split; [reflexivity |]. split; [apply length_map |].
  intros ws text. rewrite list_elem_of_In, in_map_iff. split.
  - intros ([k v] & [= <- <-] & Hin). split; [reflexivity |]. exists k.
    unfold dict_get. induction (active_connections m) as [| [k0 v0] d IH];
      [contradiction |].
    cbn in Hnd. apply NoDup_cons in Hnd as [Hk Hd]. cbn.
    destruct Hin as [[= -> ->] | Hin].
    + by rewrite String.eqb_refl.
    + destruct (String.eqb_spec k0 k) as [-> |]; [| by apply IH].
      exfalso. apply Hk. apply list_elem_of_In, in_map_iff. by exists (k, v).
  - intros [-> [k Hk]]. unfold dict_get in Hk.
    destruct (find _ (active_connections m)) as [[k0 v0] |] eqn:Hf; [| discriminate].
    injection Hk as <-. apply find_some in Hf as [Hin _]. by exists (k0, v0).
Qed.

(** The theorem for a registry with an upload and a notification
    connection. *)
Lemma broadcast_reaches_every_client_witness :
  let m := connect 2 "notifications_7" (connect 1 "upload_tok" init) in
  exists added,
    sent_text (broadcast "{}" m) = sent_text m ++ added
    /\ length added = length (active_connections m)
    /\ (forall websocket text,
          (websocket, text) ∈ added <->
          text = "{}"
          /\ exists client_id,
               dict_get client_id (active_connections m) = Some websocket).
Proof.
  intros m. apply (broadcast_reaches_every_client "{}" m).
  cbn. apply NoDup_cons. split; [| apply NoDup_singleton].
  intros H. apply list_elem_of_singleton in H. discriminate H.
Defined.

End Registry.

(** ** The notification channel *)

Module NotificationChannel.
Import Notifications Notions.

(** Notifications wait for the client. Each turn of the loop relays at
    most one published message and then waits for a frame of the client,
    so however many messages are published, the number of notifications
    relayed is at most one more than the number of frames the client has
    sent. *)
Theorem notifications_wait_for_the_client
    (polls : list poll) (frames : list frame) :
  (length (List.filter is_notification (listen polls frames).1)
   <= S (length frames))%nat.
Proof.
  revert frames. induction polls as [| p polls IH]; intros frames; [cbn; lia |].
  cbn [listen]. destruct p as [| [data |] |]; try (cbn; lia).
  - destruct frames as [| [| |] frames]; try (cbn; lia).
    + specialize (IH frames). destruct (listen polls frames) as [sent st].
      cbn in *. lia.
    + specialize (IH frames). destruct (listen polls frames) as [sent st].
      cbn in *. lia.
  - destruct frames as [| [| |] frames]; try (cbn; lia).
    + specialize (IH frames). destruct (listen polls frames) as [sent st].
      cbn in *. lia.
    + specialize (IH frames). destruct (listen polls frames) as [sent st].
      cbn in *. lia.
Qed.

(** A healthy exchange never ends by itself. While every poll gives
    nothing or a message that parses and the client keeps sending frames
    without disconnecting, the handler stays in its loop whatever text
    the client sends; turn by turn it sends the polled notification, if
    any, and then a pong exactly when the client's frame was a ping. *)
Theorem healthy_exchange_keeps_listening
    (polls : list poll) (frames : list frame) :
  forallb healthy polls = true ->
  (forall f, f ∈ frames -> f <> gone) ->
  (length polls <= length frames)%nat ->
  listen polls frames = (concat (zip_with turn polls frames), Listening).
Proof.
  revert frames. induction polls as [| p polls IH]; intros frames Hp Hf Hlen;
    [reflexivity |].
  cbn [forallb] in Hp. apply andb_true_iff in Hp as [Hp Hps].
  destruct frames as [| f frames]; [cbn in Hlen; lia |].
  assert (Hrest : listen polls frames = (concat (zip_with turn polls frames), Listening)).
  { apply IH; [exact Hps | | cbn in Hlen; lia]. intros g Hg. apply Hf. set_solver. }
  assert (Hgone : f <> gone) by (apply Hf; set_solver).
  cbn [listen zip_with concat].
  destruct p as [| [data |] |]; try discriminate;
    destruct f; try contradiction; rewrite Hrest; cbn; reflexivity.
Qed.

(** The theorem for two published messages around a ping and a text that
    is not JSON. *)
Lemma healthy_exchange_witness :
  listen [message (Some "{}"); no_message; message (Some "[]")]
         [ping; other_text; ping]
  = (concat (zip_with turn [message (Some "{}"); no_message; message (Some "[]")]
                      [ping; other_text; ping]), Listening).
Proof.
  apply (healthy_exchange_keeps_listening
           [message (Some "{}"); no_message; message (Some "[]")]
           [ping; other_text; ping]).
  - reflexivity.
  - intros f Hf. repeat (apply elem_of_cons in Hf as [-> | Hf]; [discriminate |]).
    by apply elem_of_nil in Hf.
  - cbn. lia.
Defined.

End NotificationChannel.

(** ** Deleting a video *)

Module VideoDeletion.
Import Analysis Videos ListFacts JobsApi.

(** A video goes with its jobs. Deleting a video of the caller removes
    it for everybody and removes every analysis of it, pending and
    running ones included (which [delete_analysis] would refuse to
    delete): afterwards no job that can be selected belongs to that
    video; videos with another id are read as before. *)
Theorem deleted_video_takes_its_jobs
    (video_id current_user_id : Z) (vids : list Video.t)
    (tbl : list VideoAnalysis.t) (video : Video.t) :
  select_video video_id current_user_id vids = Some video ->
  exists vids' tbl',
    delete_video video_id current_user_id vids tbl
    = (vids', tbl', Ok "Video deleted successfully")
    /\ (forall u, get_video video_id u vids'
                  = HTTPException HTTP_404_NOT_FOUND "Video not found")
    /\ (forall a, a ∈ tbl' <-> a ∈ tbl /\ VideoAnalysis.video_id a <> video_id)
    /\ (forall analysis_id u a v,
          select_analysis analysis_id u vids' tbl' = Some (a, v) ->
          VideoAnalysis.video_id a <> video_id)
    /\ (forall other u, other <> video_id ->
          get_video other u vids' = get_video other u vids).
Proof.
  intros Hsel.
  assert (Hid : Video.id video = video_id).
  { unfold select_video in Hsel. apply find_some in Hsel as [_ H].
    apply andb_true_iff in H as [H _]. by apply Z.eqb_eq in H. }
  assert (Hrows : forall a,
             a ∈ List.filter (fun a => negb (Z.eqb (VideoAnalysis.video_id a) video_id)) tbl
             <-> a ∈ tbl /\ VideoAnalysis.video_id a <> video_id).
  { intros a. rewrite !list_elem_of_In, filter_In, negb_true_iff, Z.eqb_neq. tauto. }
  eexists _, _. split; [unfold delete_video; rewrite Hsel, Hid; reflexivity |].
  split; [| split; [exact Hrows | split]].
  - intros u. unfold get_video, select_video. rewrite find_filter.
    rewrite (find_none_all _ vids); [reflexivity |].
    intros v _. destruct (Z.eqb_spec (Video.id v) video_id); reflexivity.
  - intros analysis_id u a v Ha.
    destruct (select_analysis_some _ _ _ _ _ _ Ha) as (Hin & _).
    by apply Hrows in Hin as [_ Hne].
  - intros other u Hne. unfold get_video, select_video. rewrite find_filter.
    rewrite (find_ext_all _ (fun v => Z.eqb (Video.id v) other
                                      && Z.eqb (Video.user_id v) u) vids);
      [reflexivity |].
    intros v. destruct (Z.eqb_spec (Video.id v) video_id) as [Hv |]; [| reflexivity].
    cbn. destruct (Z.eqb_spec (Video.id v) other); [congruence | reflexivity].
Qed.

(** The theorem for the example video while its metadata job is running. *)
Lemma deleted_video_witness :
  exists vids' tbl',
    delete_video 1 7 [Scenario.video1] [Scenario.job "running"]
    = (vids', tbl', Ok "Video deleted successfully")
    /\ (forall u, get_video 1 u vids'
                  = HTTPException HTTP_404_NOT_FOUND "Video not found")
    /\ (forall a, a ∈ tbl' <-> a ∈ [Scenario.job "running"]
                               /\ VideoAnalysis.video_id a <> 1%Z)
    /\ (forall analysis_id u a v,
          select_analysis analysis_id u vids' tbl' = Some (a, v) ->
          VideoAnalysis.video_id a <> 1%Z)
    /\ (forall other u, other <> 1%Z ->
          get_video other u vids' = get_video other u [Scenario.video1]).
Proof.
  apply (deleted_video_takes_its_jobs 1 7 [Scenario.video1] [Scenario.job "running"]
           Scenario.video1).
  reflexivity.
Defined.

End VideoDeletion.
